(** * Ubuntu image fetcher (request_py.py): a shallow embedding

    The Python program downloads images named by URLs into a local
    directory.  This development embeds its four working functions

      - [get_extension_from_content_type]
      - [extract_filename]
      - [is_duplicate_image]
      - [download_image]

    together with the parts of the Python runtime they touch: strings,
    MD5 ([hashlib]), URL parsing and percent decoding ([urllib.parse]),
    POSIX paths and files ([os], [open]), an HTTP response ([requests])
    and the standard output.

    Conventions.  A Python [str] is a [string]; each character stands for
    the code point with the same number.  A Python [bytes] is a
    [list byte].  Functions that perform input or output are computations
    in the monad [M]: they take a [World] and give back a result, which is
    a value or a raised exception, and the world after the call. *)

From Stdlib Require Import String Ascii List ZArith Lia Bool Arith.
From Stdlib.Strings Require Import Byte.
Import ListNotations.
Local Open Scope string_scope.

(* ===================================================================== *)
(** ** Python strings *)
(* ===================================================================== *)

Module PyStr.

(** [c in s] for a one-character [c]. *)
Fixpoint contains (c : ascii) (s : string) : bool :=
  match s with
  | EmptyString => false
  | String x rest => Ascii.eqb x c || contains c rest
  end.

(** [s.startswith(p)]. *)
Fixpoint startswith (p s : string) : bool :=
  match p, s with
  | EmptyString, _ => true
  | String a p', String b s' => Ascii.eqb a b && startswith p' s'
  | String _ _, EmptyString => false
  end.

(** [s.split(sep)] for a one-character separator: never the empty list. *)
Fixpoint split (sep : ascii) (s : string) : list string :=
  match s with
  | EmptyString => [EmptyString]
  | String c rest =>
      if Ascii.eqb c sep then EmptyString :: split sep rest
      else match split sep rest with
           | [] => [String c EmptyString]
           | w :: ws => String c w :: ws
           end
  end.

(** [s[:n]]. *)
Fixpoint take (n : nat) (s : string) : string :=
  match n, s with
  | S k, String c rest => String c (take k rest)
  | _, _ => EmptyString
  end.

(** [s[n:]]. *)
Fixpoint drop (n : nat) (s : string) : string :=
  match n, s with
  | S k, String _ rest => drop k rest
  | _, _ => s
  end.

(** One character of [str.lower()]: A-Z, and the capital letters of the
    Latin-1 block (0xC0-0xDE without the multiplication sign 0xD7). *)
Definition lower_char (c : ascii) : ascii :=
  let n := nat_of_ascii c in
  if (((65 <=? n) && (n <=? 90))
      || ((192 <=? n) && (n <=? 222) && negb (n =? 215)))%nat
  then ascii_of_nat (n + 32) else c.

Fixpoint lower (s : string) : string :=
  match s with
  | EmptyString => EmptyString
  | String c rest => String (lower_char c) (lower rest)
  end.

(** [s.encode()]: UTF-8, one byte below 0x80 and two bytes from there. *)
Definition encode_char (c : ascii) : list byte :=
  let n := N_of_ascii c in
  if (n <? 128)%N then [byte_of_ascii c]
  else match Byte.of_N (192 + n / 64)%N, Byte.of_N (128 + n mod 64)%N with
       | Some hi, Some lo => [hi; lo]
       | _, _ => []
       end.

Fixpoint encode (s : string) : list byte :=
  match s with
  | EmptyString => []
  | String c rest => encode_char c ++ encode rest
  end.

(** The characters [0-9a-f] of a [hexdigest()]. *)
Definition is_hex (c : ascii) : bool :=
  let n := nat_of_ascii c in
  (((48 <=? n) && (n <=? 57)) || ((97 <=? n) && (n <=? 102)))%nat.

Fixpoint all_hex (s : string) : bool :=
  match s with
  | EmptyString => true
  | String c rest => is_hex c && all_hex rest
  end.

End PyStr.

(* ===================================================================== *)
(** ** hashlib.md5 (RFC 1321) on 32-bit words held in [Z] *)
(* ===================================================================== *)

Module MD5.
Local Open Scope Z_scope.

Definition wrap32 (x : Z) : Z := x mod 2 ^ 32.
Definition add32 (a b : Z) : Z := wrap32 (a + b).
Definition not32 (x : Z) : Z := Z.lxor x 0xFFFFFFFF.
Definition rotl32 (x n : Z) : Z :=
  Z.lor (wrap32 (Z.shiftl x n)) (Z.shiftr x (32 - n)).

Definition shifts : list Z :=
  [7; 12; 17; 22; 7; 12; 17; 22; 7; 12; 17; 22; 7; 12; 17; 22;
   5; 9; 14; 20; 5; 9; 14; 20; 5; 9; 14; 20; 5; 9; 14; 20;
   4; 11; 16; 23; 4; 11; 16; 23; 4; 11; 16; 23; 4; 11; 16; 23;
   6; 10; 15; 21; 6; 10; 15; 21; 6; 10; 15; 21; 6; 10; 15; 21].

(** floor(2^32 * |sin(i + 1)|) for i = 0 .. 63. *)
Definition sines : list Z :=
  [3614090360; 3905402710; 606105819; 3250441966; 4118548399; 1200080426;
   2821735955; 4249261313; 1770035416; 2336552879; 4294925233; 2304563134;
   1804603682; 4254626195; 2792965006; 1236535329; 4129170786; 3225465664;
   643717713; 3921069994; 3593408605; 38016083; 3634488961; 3889429448;
   568446438; 3275163606; 4107603335; 1163531501; 2850285829; 4243563512;
   1735328473; 2368359562; 4294588738; 2272392833; 1839030562; 4259657740;
   2763975236; 1272893353; 4139469664; 3200236656; 681279174; 3936430074;
   3572445317; 76029189; 3654602809; 3873151461; 530742520; 3299628645;
   4096336452; 1126891415; 2878612391; 4237533241; 1700485571; 2399980690;
   4293915773; 2240044497; 1873313359; 4264355552; 2734768916; 1309151649;
   4149444226; 3174756917; 718787259; 3951481745].

Record state := mkState { sa : Z; sb : Z; sc : Z; sd : Z }.

Definition init : state :=
  mkState 0x67452301 0xefcdab89 0x98badcfe 0x10325476.

(** The mixing function of round [i] and the index of the message word. *)
Definition mix (i : nat) (b c d : Z) : Z * nat :=
  if (i <? 16)%nat then
    (Z.lor (Z.land b c) (Z.land (not32 b) d), i)
  else if (i <? 32)%nat then
    (Z.lor (Z.land d b) (Z.land (not32 d) c), (5 * i + 1) mod 16)%nat
  else if (i <? 48)%nat then
    (Z.lxor (Z.lxor b c) d, (3 * i + 5) mod 16)%nat
  else
    (Z.lxor c (Z.lor b (not32 d)), (7 * i) mod 16)%nat.

Definition step (block : list Z) (st : state) (i : nat) : state :=
  let '(f, g) := mix i (sb st) (sc st) (sd st) in
  let f' := add32 (add32 (add32 f (sa st)) (nth i sines 0)) (nth g block 0) in
  mkState (sd st) (add32 (sb st) (rotl32 f' (nth i shifts 0))) (sb st) (sc st).

Definition compress (st : state) (block : list Z) : state :=
  let r := fold_left (step block) (seq 0 64) st in
  mkState (add32 (sa st) (sa r)) (add32 (sb st) (sb r))
          (add32 (sc st) (sc r)) (add32 (sd st) (sd r)).

(** Little-endian bytes of a word, and back. *)
Definition le_bytes (n : nat) (x : Z) : list Z :=
  map (fun k => Z.shiftr x (8 * Z.of_nat k) mod 256) (seq 0 n).

Fixpoint le_words (fuel : nat) (bs : list Z) : list Z :=
  match fuel, bs with
  | S k, b0 :: b1 :: b2 :: b3 :: rest =>
      (b0 + Z.shiftl b1 8 + Z.shiftl b2 16 + Z.shiftl b3 24) :: le_words k rest
  | _, _ => []
  end.

Definition pad (msg : list Z) : list Z :=
  let len := Z.of_nat (length msg) in
  msg ++ [128] ++ repeat 0 (Z.to_nat ((55 - len) mod 64))
      ++ le_bytes 8 ((8 * len) mod 2 ^ 64).

Fixpoint blocks (fuel : nat) (bs : list Z) : list (list Z) :=
  match fuel with
  | O => []
  | S k => le_words 16 (firstn 64 bs) :: blocks k (skipn 64 bs)
  end.

Definition digest (data : list byte) : state :=
  let padded := pad (map (fun b => Z.of_N (Byte.to_N b)) data) in
  fold_left compress (blocks (length padded / 64) padded) init.

Definition hex_digit (n : Z) : ascii :=
  match Z.to_nat (n mod 16) with
  | 0 => "0" | 1 => "1" | 2 => "2" | 3 => "3" | 4 => "4" | 5 => "5"
  | 6 => "6" | 7 => "7" | 8 => "8" | 9 => "9" | 10 => "a" | 11 => "b"
  | 12 => "c" | 13 => "d" | 14 => "e" | _ => "f"
  end%nat%char.

Fixpoint hex_of_bytes (bs : list Z) : string :=
  match bs with
  | [] => EmptyString
  | b :: rest => String (hex_digit (b / 16)) (String (hex_digit b) (hex_of_bytes rest))
  end.

(** [hashlib.md5(data).hexdigest()]. *)
Definition hexdigest (data : list byte) : string :=
  let st := digest data in
  hex_of_bytes (le_bytes 4 (sa st) ++ le_bytes 4 (sb st)
                ++ le_bytes 4 (sc st) ++ le_bytes 4 (sd st)).

End MD5.

(** A digest is computed on closed data only. *)
Arguments MD5.hexdigest : simpl never.
Arguments MD5.digest : simpl never.

(* ===================================================================== *)
(** ** Exceptions and results *)
(* ===================================================================== *)

Inductive errno := ENOENT | ENOTDIR | EISDIR | EACCES.

(** The exception classes the program can meet.  [HTTPError] is a
    subclass of [requests.exceptions.RequestException]; [IOError] is
    another name of [OSError]. *)
Inductive exn :=
| RequestException (detail : string)
| HTTPError (status_code : Z)
| OSError (code : errno)
| ValueError (detail : string).

Inductive result (A : Type) :=
| Ok (a : A)
| Raise (e : exn).
Arguments Ok {A} a.
Arguments Raise {A} e.

(* ===================================================================== *)
(** ** urllib.parse: the interface [extract_filename] relies on *)
(* ===================================================================== *)

(** [urlparse_path url] is [urlparse(url).path], or the [ValueError] that
    [urlparse] raises; [unquote s] is [urllib.parse.unquote(s)].  The
    functions of the program are written against this interface; the
    instance [Urllib.model] below computes. *)
Class UrlLib := {
  urlparse_path : string -> result string;
  unquote : string -> string
}.

Module Urllib.
Import PyStr.

(** Splits [s] before the first character that satisfies [stop]. *)
Fixpoint cut (stop : ascii -> bool) (s : string) : string * string :=
  match s with
  | EmptyString => (EmptyString, EmptyString)
  | String c rest =>
      if stop c then (EmptyString, s)
      else let '(a, b) := cut stop rest in (String c a, b)
  end.

Definition is_c0_or_space (c : ascii) : bool := (nat_of_ascii c <=? 32)%nat.

Fixpoint lstrip_c0 (s : string) : string :=
  match s with
  | EmptyString => EmptyString
  | String c rest => if is_c0_or_space c then lstrip_c0 rest else s
  end.

(** Tab, line feed and carriage return are removed wherever they are. *)
Fixpoint remove_unsafe (s : string) : string :=
  match s with
  | EmptyString => EmptyString
  | String c rest =>
      let n := nat_of_ascii c in
      if ((n =? 9) || (n =? 10) || (n =? 13))%nat then remove_unsafe rest
      else String c (remove_unsafe rest)
  end.

Definition is_alpha (c : ascii) : bool :=
  let n := nat_of_ascii c in
  (((65 <=? n) && (n <=? 90)) || ((97 <=? n) && (n <=? 122)))%nat.

Definition is_scheme_char (c : ascii) : bool :=
  let n := nat_of_ascii c in
  (is_alpha c || ((48 <=? n) && (n <=? 57))
   || (n =? 43) || (n =? 45) || (n =? 46))%nat.

Fixpoint forallb_str (f : ascii -> bool) (s : string) : bool :=
  match s with
  | EmptyString => true
  | String c rest => f c && forallb_str f rest
  end.

(** The scheme, in lower case, and what follows its colon. *)
Definition split_scheme (url : string) : string * string :=
  let '(pre, rest) := cut (Ascii.eqb ":") url in
  match pre, rest with
  | String c0 _, String _ after =>
      if is_alpha c0 && forallb_str is_scheme_char pre
      then (lower pre, after) else (EmptyString, url)
  | _, _ => (EmptyString, url)
  end.

Definition ends_netloc (c : ascii) : bool :=
  Ascii.eqb c "/" || Ascii.eqb c "?" || Ascii.eqb c "#".

Definition uses_params : list string :=
  [""; "ftp"; "hdl"; "prospero"; "http"; "imap"; "https"; "shttp"; "rtsp";
   "rtspu"; "sip"; "sips"; "mms"; "sftp"; "tel"].

(** [_splitparams(url)[0]]: the last segment loses what follows its
    first semicolon. *)
Fixpoint splitparams (url : string) : string :=
  match url with
  | EmptyString => EmptyString
  | String c rest =>
      if contains "/" rest then String c (splitparams rest)
      else fst (cut (Ascii.eqb ";") url)
  end.

(** [urlparse(url).path].  A network location with one bracket and not
    the other raises [ValueError]; the further checks that the library
    makes on a bracketed or non-ASCII host are left out. *)
Definition path_of_url (url : string) : result string :=
  let url := remove_unsafe (lstrip_c0 url) in
  let '(scheme, url) := split_scheme url in
  let '(netloc, url) :=
    if startswith "//" url then cut ends_netloc (drop 2 url)
    else (EmptyString, url) in
  if xorb (contains "[" netloc) (contains "]" netloc)
  then Raise (ValueError "Invalid IPv6 URL")
  else
    let url := fst (cut (Ascii.eqb "#") url) in
    let url := fst (cut (Ascii.eqb "?") url) in
    if existsb (String.eqb scheme) uses_params && contains ";" url
    then Ok (splitparams url) else Ok url.

Definition hex_val (c : ascii) : option nat :=
  let n := nat_of_ascii c in
  if ((48 <=? n) && (n <=? 57))%nat then Some (n - 48)
  else if ((97 <=? n) && (n <=? 102))%nat then Some (n - 87)
  else if ((65 <=? n) && (n <=? 70))%nat then Some (n - 55)
  else None.

(** [unquote(s)]: every [%XY] with two hexadecimal digits becomes the
    character of that number, any other percent sign stays.  This is the
    library's result when the escapes of [s] are below [%80]; a byte
    from [%80] on is kept as the character of its number, where the
    library decodes UTF-8. *)
Fixpoint percent_decode (s : string) : string :=
  match s with
  | EmptyString => EmptyString
  | String c rest =>
      if Ascii.eqb c "%" then
        match rest with
        | String h (String l rest2) =>
            match hex_val h, hex_val l with
            | Some a, Some b => String (ascii_of_nat (16 * a + b)) (percent_decode rest2)
            | _, _ => String c (percent_decode rest)
            end
        | _ => String c (percent_decode rest)
        end
      else String c (percent_decode rest)
  end.

#[global] Instance model : UrlLib :=
  {| urlparse_path := path_of_url; unquote := percent_decode |}.

End Urllib.

(* ===================================================================== *)
(** ** posixpath *)
(* ===================================================================== *)

Module PosixPath.
Import PyStr.

(** [os.path.basename(p)]: what follows the last slash. *)
Definition basename (p : string) : string := last (split "/" p) EmptyString.

Fixpoint endswith_slash (s : string) : bool :=
  match s with
  | EmptyString => false
  | String c EmptyString => Ascii.eqb c "/"
  | String _ rest => endswith_slash rest
  end.

(** [os.path.join(a, p)]. *)
Definition join (a p : string) : string :=
  if startswith "/" p then p
  else if String.eqb a "" || endswith_slash a then a ++ p
  else a ++ "/" ++ p.

(** A name is an entry of a directory when it is not empty, holds no
    slash and no NUL, and is neither [.] nor [..]. *)
Definition entry_name (s : string) : bool :=
  negb (String.eqb s "") && negb (contains "/" s)
  && negb (contains zero s)
  && negb (String.eqb s ".") && negb (String.eqb s "..").

End PosixPath.

(* ===================================================================== *)
(** ** The program, pure part *)
(* ===================================================================== *)

Definition content_map : list (string * string) :=
  [("image/jpeg", ".jpg");
   ("image/jpg", ".jpg");
   ("image/png", ".png");
   ("image/gif", ".gif");
   ("image/webp", ".webp");
   ("image/svg+xml", ".svg");
   ("image/bmp", ".bmp");
   ("image/tiff", ".tiff")].

(** [d.get(k)] on a dict written as its list of items. *)
Fixpoint dict_get (k : string) (d : list (string * string)) : option string :=
  match d with
  | [] => None
  | (k', v) :: rest => if String.eqb k' k then Some v else dict_get k rest
  end.

(** [content_type] is [None] or a [str]; the empty [str] is falsy. *)
Definition get_extension_from_content_type (content_type : option string)
  : option string :=
  match content_type with
  | None => None
  | Some EmptyString => None
  | Some ct => dict_get (PyStr.lower ct) content_map
  end.

(** The test of line 36: no filename, no dot in it, or under 3 characters. *)
Definition too_generic (filename : string) : bool :=
  String.eqb filename "" || negb (PyStr.contains "." filename)
  || (String.length filename <? 3)%nat.

Definition extract_filename `{UrlLib} (url : string) (content_type : option string)
  : result string :=
  match urlparse_path url with
  | Raise e => Raise e
  | Ok parsed_path =>
      let path := unquote parsed_path in
      let filename := PosixPath.basename path in
      if too_generic filename then
        let url_hash := PyStr.take 8 (MD5.hexdigest (PyStr.encode url)) in
        let extension :=
          match get_extension_from_content_type content_type with
          | Some e => e
          | None => ".jpg"
          end in
        Ok ("ubuntu_image_" ++ url_hash ++ extension)
      else if PyStr.contains "%" filename then Ok (unquote filename)
      else Ok filename
  end.

(* ===================================================================== *)
(** ** The world: files, the network, the standard output *)
(* ===================================================================== *)

(** A resolved path: the names from the root down. *)
Definition path := list string.

Record file := mkFile {
  content : list byte;
  readable : bool;
  writable : bool
}.

Inductive node :=
| Dir
| File (f : file).

(** The file system, one item per entry below the root, in the order in
    which a directory listing reports them.  The root always exists.
    Symbolic links, permissions of directories and limits on the length
    of a name are not part of the model. *)
Definition tree := list (path * node).

Record response := mkResponse {
  status_code : Z;
  headers : list (string * string);
  body : list byte
}.

(** What [requests.get] meets: a transport failure or a response. *)
Inductive net_outcome :=
| NetFail (detail : string)
| NetOk (r : response).

(** One constructor per [print] of the program, with the values that
    its f-string shows. *)
Inductive msg :=
| MsgInvalidScheme
| MsgConnecting (url : string)
| MsgNotImage (content_type : string)
| MsgSecurityHeaders
| MsgSecurityHeader (header value : string)
| MsgDuplicate (existing_file : option string)
| MsgFetched (filename : string) (file_size : nat)
| MsgSaved (directory : string)
| MsgConnectionError (e : exn)
| MsgFileError (e : exn)
| MsgUnexpected (e : exn).

Record World := mkWorld {
  fs : tree;
  cwd : path;
  server : string -> net_outcome;
  requests_sent : list string;
  stdout : list msg
}.

Definition set_fs (t : tree) (w : World) : World :=
  mkWorld t (cwd w) (server w) (requests_sent w) (stdout w).

(** *** The monad of computations *)

Definition M (A : Type) : Type := World -> result A * World.

Definition ret {A} (a : A) : M A := fun w => (Ok a, w).

Definition raise {A} (e : exn) : M A := fun w => (Raise e, w).

Definition bind {A B} (c : M A) (k : A -> M B) : M B :=
  fun w =>
    match c w with
    | (Ok a, w') => k a w'
    | (Raise e, w') => (Raise e, w')
    end.

(** [try: c  except ...:], the handler choosing the exceptions it
    catches; an exception it does not catch goes on. *)
Definition try_except {A} (c : M A) (handler : exn -> option (M A)) : M A :=
  fun w =>
    match c w with
    | (Ok a, w') => (Ok a, w')
    | (Raise e, w') =>
        match handler e with
        | Some h => h w'
        | None => (Raise e, w')
        end
    end.

Definition lift {A} (r : result A) : M A := fun w => (r, w).

Declare Scope py_scope.
Delimit Scope py_scope with py.
Notation "x <- c ;; k" := (bind c (fun x => k))
  (at level 61, c at next level, right associativity) : py_scope.
Notation "c ;; k" := (bind c (fun _ => k))
  (at level 61, right associativity) : py_scope.
Local Open Scope py_scope.

Fixpoint for_each {A} (xs : list A) (f : A -> M unit) : M unit :=
  match xs with
  | [] => ret tt
  | x :: rest => f x ;; for_each rest f
  end.

(** *** print *)

Definition print (m : msg) : M unit :=
  fun w => (Ok tt, mkWorld (fs w) (cwd w) (server w) (requests_sent w)
                           (stdout w ++ [m])%list).

(** *** Files *)

Module Posix.

Definition path_eqb (p q : path) : bool :=
  if list_eq_dec string_dec p q then true else false.

Fixpoint lookup (t : tree) (p : path) : option node :=
  match t with
  | [] => None
  | (q, n) :: rest => if path_eqb q p then Some n else lookup rest p
  end.

Definition is_dir (t : tree) (p : path) : bool :=
  match p with
  | [] => true
  | _ => match lookup t p with
         | Some Dir => true
         | _ => false
         end
  end.

(** One step of path resolution from the directory [cur]. *)
Definition enter (cur : path) (c : string) : path :=
  if String.eqb c "" || String.eqb c "." then cur
  else if String.eqb c ".." then removelast cur
  else (cur ++ [c])%list.

(** Walks the components of a path; every directory that is walked
    through must exist. *)
Fixpoint walk (t : tree) (cur : path) (comps : list string) : result path :=
  match comps with
  | [] => Ok cur
  | c :: rest =>
      if is_dir t cur then walk t (enter cur c) rest
      else Raise (OSError (match lookup t cur with
                           | Some _ => ENOTDIR
                           | None => ENOENT
                           end))
  end.

(** Resolution of the path [p] in the tree [t] for a process whose
    working directory is [wd]. *)
Definition resolve_at (t : tree) (wd : path) (p : string) : result path :=
  if String.eqb p "" then Raise (OSError ENOENT)
  else if PyStr.contains zero p then Raise (ValueError "embedded null byte")
  else walk t (if PyStr.startswith "/" p then [] else wd) (PyStr.split "/" p).

(** The name of [p] when [p] is an entry of the directory [d]. *)
Fixpoint child_name (d p : path) : option string :=
  match d, p with
  | [], [n] => Some n
  | a :: d', b :: p' => if String.eqb a b then child_name d' p' else None
  | _, _ => None
  end.

Fixpoint names_in (d : path) (t : tree) : list string :=
  match t with
  | [] => []
  | (p, _) :: rest =>
      match child_name d p with
      | Some n => n :: names_in d rest
      | None => names_in d rest
      end
  end.

(** Replaces the node at [p]. *)
Fixpoint update (t : tree) (p : path) (n : node) : tree :=
  match t with
  | [] => []
  | (q, m) :: rest =>
      if path_eqb q p then (q, n) :: rest else (q, m) :: update rest p n
  end.

(** The system calls, as functions of the tree and of the working
    directory. *)

Definition not_a_directory (t : tree) (p : path) : exn :=
  OSError (match lookup t p with
           | Some _ => ENOTDIR
           | None => ENOENT
           end).

Definition listdir_at (t : tree) (wd : path) (d : string)
  : result (list string) :=
  match resolve_at t wd d with
  | Raise e => Raise e
  | Ok p => if is_dir t p then Ok (names_in p t)
            else Raise (not_a_directory t p)
  end.

Definition isfile_at (t : tree) (wd : path) (p : string) : bool :=
  match resolve_at t wd p with
  | Ok (c :: rp) =>
      match lookup t (c :: rp) with
      | Some (File _) => true
      | _ => false
      end
  | _ => false
  end.

Definition read_at (t : tree) (wd : path) (p : string) : result (list byte) :=
  match resolve_at t wd p with
  | Raise e => Raise e
  | Ok [] => Raise (OSError EISDIR)
  | Ok (c :: rp) =>
      match lookup t (c :: rp) with
      | Some Dir => Raise (OSError EISDIR)
      | Some (File f) =>
          if readable f then Ok (content f) else Raise (OSError EACCES)
      | None => Raise (OSError ENOENT)
      end
  end.

(** An existing file keeps its place and its mode; a new file comes
    last, readable and writable.  Resolution has already checked that
    the directory of a new file exists. *)
Definition write_at (t : tree) (wd : path) (p : string) (data : list byte)
  : result tree :=
  match resolve_at t wd p with
  | Raise e => Raise e
  | Ok [] => Raise (OSError EISDIR)
  | Ok (c :: rp) =>
      match lookup t (c :: rp) with
      | Some Dir => Raise (OSError EISDIR)
      | Some (File f) =>
          if writable f
          then Ok (update t (c :: rp)
                     (File (mkFile data (readable f) (writable f))))
          else Raise (OSError EACCES)
      | None => Ok (t ++ [(c :: rp, File (mkFile data true true))])%list
      end
  end.

(** The size that a directory reports is not modelled and stands as 0;
    the program asks for the size of a file it has just written. *)
Definition getsize_at (t : tree) (wd : path) (p : string) : result nat :=
  match resolve_at t wd p with
  | Raise e => Raise e
  | Ok [] => Ok 0
  | Ok (c :: rp) =>
      match lookup t (c :: rp) with
      | Some Dir => Ok 0
      | Some (File f) => Ok (length (content f))
      | None => Raise (OSError ENOENT)
      end
  end.

End Posix.

(** [os.listdir(d)]. *)
Definition os_listdir (d : string) : M (list string) :=
  fun w => (Posix.listdir_at (fs w) (cwd w) d, w).

(** [os.path.isfile(p)]: never raises. *)
Definition os_path_isfile (p : string) : M bool :=
  fun w => (Ok (Posix.isfile_at (fs w) (cwd w) p), w).

(** [with open(p, 'rb') as f: f.read()]. *)
Definition read_file (p : string) : M (list byte) :=
  fun w => (Posix.read_at (fs w) (cwd w) p, w).

(** [with open(p, 'wb') as f: f.write(data)]. *)
Definition write_file (p : string) (data : list byte) : M unit :=
  fun w =>
    match Posix.write_at (fs w) (cwd w) p data with
    | Ok t => (Ok tt, set_fs t w)
    | Raise e => (Raise e, w)
    end.

(** [os.path.getsize(p)]. *)
Definition os_path_getsize (p : string) : M nat :=
  fun w => (Posix.getsize_at (fs w) (cwd w) p, w).

(** *** requests *)

(** [requests.get(url, headers=..., timeout=10)]: the call is recorded,
    and the server of the world answers. *)
Definition requests_get (url : string) : M response :=
  fun w =>
    let w' := mkWorld (fs w) (cwd w) (server w) (requests_sent w ++ [url])%list
                      (stdout w) in
    match server w url with
    | NetFail detail => (Raise (RequestException detail), w')
    | NetOk r => (Ok r, w')
    end.

(** [response.raise_for_status()]: client errors are 400-499, server
    errors 500-599; no other status raises. *)
Definition raise_for_status (r : response) : M unit :=
  if ((400 <=? status_code r) && (status_code r <? 600))%Z
  then raise (HTTPError (status_code r))
  else ret tt.

(** [response.headers.get(name)]: the names compare without case. *)
Fixpoint headers_get (name : string) (hs : list (string * string))
  : option string :=
  match hs with
  | [] => None
  | (k, v) :: rest =>
      if String.eqb (PyStr.lower k) (PyStr.lower name) then Some v
      else headers_get name rest
  end.

(* ===================================================================== *)
(** ** The program, effectful part *)
(* ===================================================================== *)

(** The body of the loop of [is_duplicate_image] for one entry: [Some]
    of the value the function returns there, [None] to go on with the
    next entry. *)
Definition check_entry (directory content_hash existing_file : string)
  : M (option (bool * option string)) :=
  let existing_path := PosixPath.join directory existing_file in
  isfile <- os_path_isfile existing_path ;;
  if isfile : bool then
    try_except
      (data <- read_file existing_path ;;
       let existing_hash := MD5.hexdigest data in
       if String.eqb existing_hash content_hash
       then ret (Some (true, Some existing_file))
       else ret None)
      (fun e => match e with
                | OSError _ => Some (ret None)
                | _ => None
                end)
  else ret None.

Fixpoint scan (directory content_hash : string) (entries : list string)
  : M (bool * option string) :=
  match entries with
  | [] => ret (false, None)
  | existing_file :: rest =>
      r <- check_entry directory content_hash existing_file ;;
      match r with
      | Some found => ret found
      | None => scan directory content_hash rest
      end
  end.

Definition is_duplicate_image (directory : string) (content : list byte)
  : M (bool * option string) :=
  let content_hash := MD5.hexdigest content in
  entries <- os_listdir directory ;;
  scan directory content_hash entries.

Definition security_headers : list string :=
  ["X-Content-Type-Options"; "Content-Security-Policy"; "X-Frame-Options"].

(** [response.headers.get('Content-Type', '').split(';')[0]]. *)
Definition content_type_of (r : response) : string :=
  let value := match headers_get "Content-Type" (headers r) with
               | Some v => v
               | None => ""
               end in
  hd EmptyString (PyStr.split ";" value).

Definition valid_scheme (url : string) : bool :=
  PyStr.startswith "http://" url || PyStr.startswith "https://" url.

(** The body of the loop over [security_headers]: a header that is
    present with a value that is not empty is printed. *)
Definition report_header (r : response) (header : string) : M unit :=
  match headers_get header (headers r) with
  | Some (String _ _ as value) => print (MsgSecurityHeader header value)
  | _ => ret tt
  end.

(** The statements of [download_image] from the content-type check on. *)
Definition save_image `{UrlLib} (url directory : string) (r : response) : M bool :=
  let content_type := content_type_of r in
  if negb (PyStr.startswith "image/" content_type) then
    print (MsgNotImage content_type) ;;
    ret false
  else
    print MsgSecurityHeaders ;;
    for_each security_headers (report_header r) ;;
    filename <- lift (extract_filename url (Some content_type)) ;;
    let filepath := PosixPath.join directory filename in
    dup <- is_duplicate_image directory (body r) ;;
    let '(is_duplicate, existing_file) := dup in
    if is_duplicate : bool then
      print (MsgDuplicate existing_file) ;;
      ret true
    else
      write_file filepath (body r) ;;
      file_size <- os_path_getsize filepath ;;
      print (MsgFetched filename file_size) ;;
      print (MsgSaved directory) ;;
      ret true.

(** The three [except] clauses of [download_image], in their order. *)
Definition handlers (e : exn) : option (M bool) :=
  match e with
  | RequestException _ | HTTPError _ =>
      Some (print (MsgConnectionError e) ;; ret false)
  | OSError _ => Some (print (MsgFileError e) ;; ret false)
  | ValueError _ => Some (print (MsgUnexpected e) ;; ret false)
  end.

Definition download_image `{UrlLib} (url directory : string) : M bool :=
  if negb (valid_scheme url) then
    print MsgInvalidScheme ;;
    ret false
  else
    print (MsgConnecting url) ;;
    try_except
      (response <- requests_get url ;;
       raise_for_status response ;;
       save_image url directory response)
      handlers.

(* ===================================================================== *)
(** ** Notions used in the statements *)
(* ===================================================================== *)

(** Every name on every path of the tree is the name of an entry. *)
Definition wf_tree (t : tree) : bool :=
  forallb (fun e => forallb PosixPath.entry_name (fst e)) t.

(** The entry [name] of [directory] is a regular file that can be read
    and whose MD5 is [content_hash]. *)
Definition matches (t : tree) (wd : path) (directory content_hash name : string)
  : bool :=
  Posix.isfile_at t wd (PosixPath.join directory name)
  && match Posix.read_at t wd (PosixPath.join directory name) with
     | Ok data => String.eqb (MD5.hexdigest data) content_hash
     | Raise _ => false
     end.

(** The value [is_duplicate_image] returns for a listing. *)
Definition first_match (t : tree) (wd : path) (directory content_hash : string)
           (entries : list string) : bool * option string :=
  match find (matches t wd directory content_hash) entries with
  | Some name => (true, Some name)
  | None => (false, None)
  end.

(** The value [is_duplicate_image] returns, or the exception it raises. *)
Definition find_duplicate (t : tree) (wd : path) (directory : string)
           (candidate : list byte) : result (bool * option string) :=
  match Posix.listdir_at t wd directory with
  | Ok entries =>
      Ok (first_match t wd directory (MD5.hexdigest candidate) entries)
  | Raise e => Raise e
  end.

(** The world with more lines on its standard output. *)
Definition add_out (w : World) (out : list msg) : World :=
  mkWorld (fs w) (cwd w) (server w) (requests_sent w) (stdout w ++ out)%list.

(** The file name of the last pair of lines "Successfully fetched ...",
    "Image saved to ..." when the output ends with that pair. *)
Definition last_saved (out : list msg) : option string :=
  match rev out with
  | MsgSaved _ :: MsgFetched filename _ :: _ => Some filename
  | _ => None
  end.

(** A status that [raise_for_status] lets through. *)
Definition status_passes (r : response) : bool :=
  negb ((400 <=? status_code r) && (status_code r <? 600))%Z.

(** The extensions of [content_map], and the default. *)
Definition known_extensions : list string :=
  [".jpg"; ".png"; ".gif"; ".webp"; ".svg"; ".bmp"; ".tiff"].

(* ===================================================================== *)
(** ** Worlds of the examples *)
(* ===================================================================== *)

Module Scenario.

Definition png_bytes : list byte := [x89; x50; x4e; x47].

(** A process in [/srv] with an empty [Fetched_Images] below it. *)
Definition files : tree := [(["srv"], Dir); (["srv"; "Fetched_Images"], Dir)].

Definition start (srv : string -> net_outcome) : World :=
  mkWorld files ["srv"] srv [] [].

(** A server that answers every request with [r]. *)
Definition always (r : response) : string -> net_outcome := fun _ => NetOk r.

Definition png (status : Z) : response :=
  mkResponse status [("Content-Type", "image/png")] png_bytes.

Definition html : response :=
  mkResponse 200 [("Content-Type", "text/html; charset=utf-8")] png_bytes.

Definition bare : response := mkResponse 200 [("Server", "nginx")] png_bytes.

Definition not_modified : response :=
  mkResponse 304 [("content-type", "image/png")] [].

(** [Fetched_Images] with a file [cat.png] of other content that its
    owner may write but not read. *)
Definition write_only : tree :=
  (files ++ [(["srv"; "Fetched_Images"; "cat.png"],
              File (mkFile [x00] false true))])%list.

(** [Fetched_Images] with an unreadable [a.png] listed before a readable
    [b.png] that holds [png_bytes]. *)
Definition unreadable_first : tree :=
  (files ++ [(["srv"; "Fetched_Images"; "a.png"],
              File (mkFile png_bytes false true));
             (["srv"; "Fetched_Images"; "b.png"],
              File (mkFile png_bytes true true))])%list.

End Scenario.

(* ===================================================================== *)
(** ** Notions used in the further properties *)
(* ===================================================================== *)

(** The line that the [except] clauses of [download_image] print for an
    exception. *)
Definition error_line (e : exn) : msg :=
  match e with
  | RequestException _ | HTTPError _ => MsgConnectionError e
  | OSError _ => MsgFileError e
  | ValueError _ => MsgUnexpected e
  end.

(** The world once a request for [url] has been sent. *)
Definition sent (w : World) (url : string) : World :=
  mkWorld (fs w) (cwd w) (server w) (requests_sent w ++ [url])%list (stdout w).

(** The entry [name] of [directory] is a regular file that can be read
    and that has the MD5 of [candidate]. *)
Definition is_copy (directory : string) (candidate : list byte) (w : World)
           (name : string) : Prop :=
  exists data,
    os_path_isfile (PosixPath.join directory name) w = (Ok true, w)
    /\ read_file (PosixPath.join directory name) w = (Ok data, w)
    /\ MD5.hexdigest data = MD5.hexdigest candidate.

(* ===================================================================== *)
(** ** Creating the directory: os.makedirs *)
(* ===================================================================== *)

(** The exceptions of [os.mkdir]: [FileExistsError], a subclass of
    [OSError], next to the ones above. *)
Inductive mk_exn :=
| FileExistsError
| OtherError (e : exn).

Inductive mk_result (A : Type) :=
| MkOk (a : A)
| MkRaise (e : mk_exn).
Arguments MkOk {A} a.
Arguments MkRaise {A} e.

(** What [except OSError] catches: [RequestException] derives from
    [IOError], [ValueError] does not. *)
Definition is_os_error (e : mk_exn) : bool :=
  match e with
  | FileExistsError => true
  | OtherError (OSError _) => true
  | OtherError (RequestException _) => true
  | OtherError (HTTPError _) => true
  | OtherError (ValueError _) => false
  end.

Module PosixDir.

(** [p[:p.rfind('/') + 1]]: up to the last slash, the slash included. *)
Fixpoint head_raw (p : string) : string :=
  match p with
  | EmptyString => EmptyString
  | String c rest =>
      if PyStr.contains "/" p then String c (head_raw rest) else EmptyString
  end.

(** [s.rstrip('/')]. *)
Fixpoint rstrip_slash (s : string) : string :=
  match s with
  | EmptyString => EmptyString
  | String c rest =>
      let rest' := rstrip_slash rest in
      if Ascii.eqb c "/" && String.eqb rest' "" then EmptyString
      else String c rest'
  end.

(** [os.path.split(p)]: the head loses its trailing slashes unless it
    is made of slashes only. *)
Definition split (p : string) : string * string :=
  let head := head_raw p in
  let tail := PosixPath.basename p in
  (if negb (String.eqb head "")
      && negb (Urllib.forallb_str (Ascii.eqb "/") head)
   then rstrip_slash head else head,
   tail).

(** [os.path.exists(p)] and [os.path.isdir(p)]: neither raises. *)
Definition exists_at (t : tree) (wd : path) (p : string) : bool :=
  match Posix.resolve_at t wd p with
  | Ok [] => true
  | Ok (c :: rp) =>
      match Posix.lookup t (c :: rp) with
      | Some _ => true
      | None => false
      end
  | Raise _ => false
  end.

Definition isdir_at (t : tree) (wd : path) (p : string) : bool :=
  match Posix.resolve_at t wd p with
  | Ok rp => Posix.is_dir t rp
  | Raise _ => false
  end.

(** [os.mkdir(p)].  Trailing slashes do not count.  The directory that
    is to hold the new one must exist; the new one must not, under any
    kind; it comes last in the listing. *)
Definition mkdir_at (t : tree) (wd : path) (p : string) : mk_result tree :=
  if String.eqb p "" then MkRaise (OtherError (OSError ENOENT))
  else if PyStr.contains zero p
  then MkRaise (OtherError (ValueError "embedded null byte"))
  else
    let p' := rstrip_slash p in
    if String.eqb p' "" then MkRaise FileExistsError
    else
      let comps := PyStr.split "/" p' in
      match Posix.walk t (if PyStr.startswith "/" p then [] else wd)
                       (removelast comps) with
      | Raise e => MkRaise (OtherError e)
      | Ok parent =>
          if negb (Posix.is_dir t parent)
          then MkRaise (OtherError (Posix.not_a_directory t parent))
          else
            let c := last comps EmptyString in
            if String.eqb c "" || String.eqb c "." || String.eqb c ".."
            then MkRaise FileExistsError
            else match Posix.lookup t (parent ++ [c])%list with
                 | Some _ => MkRaise FileExistsError
                 | None => MkOk (t ++ [((parent ++ [c])%list, Dir)])%list
                 end
      end.

(** The last statements of [makedirs]: [mkdir], whose [OSError] is let
    go when the directory is there. *)
Definition mkdir_exist_ok (wd : path) (name : string) (t : tree)
  : option mk_exn * tree :=
  match mkdir_at t wd name with
  | MkOk t' => (None, t')
  | MkRaise e =>
      if is_os_error e && isdir_at t wd name then (None, t) else (Some e, t)
  end.

(** The first two statements of [makedirs]: a name that ends with a slash
    is split once more. *)
Definition split_name (name : string) : string * string :=
  let '(head, tail) := split name in
  if String.eqb tail "" then split head else (head, tail).

(** The body of [os.makedirs(name, exist_ok=True)], its recursive call
    given as [rec].  The result is the exception raised, if any, and the
    tree, in which the directories made so far stay. *)
Definition makedirs_body (rec : string -> tree -> option mk_exn * tree)
           (wd : path) (name : string) (t : tree) : option mk_exn * tree :=
  let '(head, tail) := split_name name in
  if negb (String.eqb head "") && negb (String.eqb tail "")
     && negb (exists_at t wd head)
  then
    match rec head t with
    | (None, t1) | (Some FileExistsError, t1) =>
        if String.eqb tail "." then (None, t1)
        else mkdir_exist_ok wd name t1
    | (Some e, t1) => (Some e, t1)
    end
  else mkdir_exist_ok wd name t.

(** The recursion is on a head that is shorter than the name; [fuel]
    counts the calls that are left. *)
Fixpoint makedirs_fuel (fuel : nat) (wd : path) (name : string) (t : tree)
  : option mk_exn * tree :=
  match fuel with
  | O => makedirs_body (fun _ t' => (None, t')) wd name t
  | S k => makedirs_body (makedirs_fuel k wd) wd name t
  end.

Definition makedirs (wd : path) (name : string) (t : tree)
  : option mk_exn * tree :=
  makedirs_fuel (String.length name) wd name t.

End PosixDir.

(* ===================================================================== *)
(** ** The program: create_directory and main *)
(* ===================================================================== *)

(** One constructor per [print] of [create_directory] and of [main];
    [Fetch] carries a line of [download_image]; [Prompt] is what
    [input] shows. *)
Inductive line :=
| Rule (newline_before : bool)
| Title
| Motto
| DirectoryReady (directory_name : string)
| DirectoryError (e : mk_exn)
| Prompt
| NoUrls
| Processing (count : nat)
| Fetching (i total : nat) (url : string)
| Complete
| Summary (successful total : nat)
| Thanks
| Fetch (m : msg).

(** The world of [main]: the world of [download_image], of which the
    standard output is not used, the lines that wait on the standard
    input, and the lines on the screen, those of [download_image] among
    them, in the order in which they were printed. *)
Record MainWorld := mkMainWorld {
  world : World;
  stdin : list string;
  screen : list line
}.

(** What ends [main] early: the end of the input, or an exception that
    no clause catches. *)
Inductive main_exn :=
| EOFError
| Escaped (e : mk_exn).

Inductive outcome (A : Type) :=
| Done (a : A)
| Crash (e : main_exn).
Arguments Done {A} a.
Arguments Crash {A} e.

Definition MM (A : Type) : Type := MainWorld -> outcome A * MainWorld.

Definition mret {A} (a : A) : MM A := fun mw => (Done a, mw).

Definition mbind {A B} (c : MM A) (k : A -> MM B) : MM B :=
  fun mw =>
    match c mw with
    | (Done a, mw') => k a mw'
    | (Crash e, mw') => (Crash e, mw')
    end.

Declare Scope main_scope.
Delimit Scope main_scope with main.
Notation "x <- c ;; k" := (mbind c (fun x => k))
  (at level 61, c at next level, right associativity) : main_scope.
Notation "c ;; k" := (mbind c (fun _ => k))
  (at level 61, right associativity) : main_scope.

Definition say (l : line) : MM unit :=
  fun mw => (Done tt, mkMainWorld (world mw) (stdin mw) (screen mw ++ [l])%list).

(** [input(prompt)]: the prompt is shown, and the next line is read. *)
Definition input : MM string :=
  fun mw =>
    let shown := (screen mw ++ [Prompt])%list in
    match stdin mw with
    | [] => (Crash EOFError, mkMainWorld (world mw) [] shown)
    | l :: rest => (Done l, mkMainWorld (world mw) rest shown)
    end.

(** [os.makedirs(name, exist_ok=True)] on the files of the world. *)
Definition os_makedirs (name : string) : MM unit :=
  fun mw =>
    let w := world mw in
    match PosixDir.makedirs (cwd w) name (fs w) with
    | (None, t) => (Done tt, mkMainWorld (set_fs t w) (stdin mw) (screen mw))
    | (Some e, t) =>
        (Crash (Escaped e), mkMainWorld (set_fs t w) (stdin mw) (screen mw))
    end.

(** [try: c  except OSError as e: h(e)]. *)
Definition except_os_error {A} (c : MM A) (h : mk_exn -> MM A) : MM A :=
  fun mw =>
    match c mw with
    | (Crash (Escaped e), mw') =>
        if is_os_error e then h e mw' else (Crash (Escaped e), mw')
    | r => r
    end.

Local Open Scope main_scope.

Definition create_directory (directory_name : string) : MM (option string) :=
  except_os_error
    (os_makedirs directory_name ;;
     say (DirectoryReady directory_name) ;;
     mret (Some directory_name))
    (fun e => say (DirectoryError e) ;; mret None).

(** [download_image] called from [main]: it runs on the world of [main]
    with an empty output of its own, and its lines go to the screen. *)
Definition call_download_image `{UrlLib} (url directory : string) : MM bool :=
  fun mw =>
    let w := world mw in
    let w0 := mkWorld (fs w) (cwd w) (server w) (requests_sent w) [] in
    match download_image url directory w0 with
    | (Ok b, w') =>
        (Done b, mkMainWorld w' (stdin mw) (screen mw ++ map Fetch (stdout w'))%list)
    | (Raise e, w') =>
        (Crash (Escaped (OtherError e)),
         mkMainWorld w' (stdin mw) (screen mw ++ map Fetch (stdout w'))%list)
    end.

Module PyStrip.

(** [c.isspace()] below 256. *)
Definition is_space (c : ascii) : bool :=
  let n := nat_of_ascii c in
  (((9 <=? n) && (n <=? 13)) || ((28 <=? n) && (n <=? 32))
   || (n =? 133) || (n =? 160))%nat.

Fixpoint lstrip (s : string) : string :=
  match s with
  | EmptyString => EmptyString
  | String c rest => if is_space c then lstrip rest else s
  end.

Fixpoint rstrip (s : string) : string :=
  match s with
  | EmptyString => EmptyString
  | String c rest =>
      let rest' := rstrip rest in
      if is_space c && String.eqb rest' "" then EmptyString
      else String c rest'
  end.

(** [s.strip()]. *)
Definition strip (s : string) : string := lstrip (rstrip s).

End PyStrip.

(** [[url.strip() for url in urls_input.split(',') if url.strip()]]. *)
Definition parse_urls (urls_input : string) : list string :=
  map PyStrip.strip
      (filter (fun url => negb (String.eqb (PyStrip.strip url) ""))
              (PyStr.split "," urls_input)).

(** The loop of [main] from the [i]-th URL on; the result is the count
    of successful downloads. *)
Fixpoint fetch_all `{UrlLib} (directory : string) (total i : nat)
         (urls : list string) (successful_downloads : nat) : MM nat :=
  match urls with
  | [] => mret successful_downloads
  | url :: rest =>
      say (Fetching i total url) ;;
      ok <- call_download_image url directory ;;
      fetch_all directory total (S i) rest
        (if ok : bool then S successful_downloads else successful_downloads)
  end.

Definition main `{UrlLib} : MM unit :=
  say (Rule true) ;;
  say Title ;;
  say Motto ;;
  say (Rule false) ;;
  directory <- create_directory "Fetched_Images" ;;
  match directory with
  | Some (String _ _ as directory) =>
      urls_input <- input ;;
      let urls_input := PyStrip.strip urls_input in
      if String.eqb urls_input "" then
        say NoUrls ;;
        mret tt
      else
        let urls := parse_urls urls_input in
        say (Processing (length urls)) ;;
        successful_downloads <- fetch_all directory (length urls) 1 urls 0 ;;
        say (Rule true) ;;
        say Complete ;;
        say (Summary successful_downloads (length urls)) ;;
        say Thanks ;;
        say (Rule false)
  | _ => mret tt
  end.

Local Close Scope main_scope.

(* ===================================================================== *)
(** ** Notions used in the properties of create_directory and main *)
(* ===================================================================== *)

(** The tree [t'] is the tree [t] with directories added at its end. *)
Definition only_adds_directories (t t' : tree) : Prop :=
  exists added, t' = (t ++ added)%list /\ Forall (fun e => snd e = Dir) added.

(** The lines "[i/total] Fetching from: url" of the loop of [main]. *)
Fixpoint numbered (total i : nat) (urls : list string) : list line :=
  match urls with
  | [] => []
  | url :: rest => Fetching i total url :: numbered total (S i) rest
  end.

(** A line that [main] prints itself, not one of [download_image]. *)
Definition own_line (l : line) : bool :=
  match l with
  | Fetch _ => false
  | _ => true
  end.

(** The five lines that open [main] and the five that close a batch. *)
Definition banner : list line := [Rule true; Title; Motto; Rule false].

Definition closing (successful total : nat) : list line :=
  [Rule true; Complete; Summary successful total; Thanks; Rule false].

(** Worlds of the examples of [main]: a process in [/srv], and a file
    where the directory should be. *)
Module MainScenario.

Definition home : tree := [(["srv"], Dir)].

Definition blocked : tree :=
  [(["srv"], Dir); (["srv"; "Fetched_Images"], File (mkFile [] true true))].

Definition console (t : tree) (input_lines : list string) : MainWorld :=
  mkMainWorld (mkWorld t ["srv"] (Scenario.always (Scenario.png 200)) [] [])
              input_lines [].

End MainScenario.

(** The answer of [Scenario.png] with headers that [download_image]
    reports and a parameter on its content type. *)
Definition png_with_headers : response :=
  mkResponse 200
    [("X-Frame-Options", "DENY");
     ("content-type", "image/png; charset=binary");
     ("Content-Security-Policy", "default-src 'none'")]
    Scenario.png_bytes.

(* ===================================================================== *)
(** * Properties *)
(* ===================================================================== *)

(** ** MD5 against the test suite of RFC 1321 and [hashlib] *)

Example md5_empty : MD5.hexdigest [] = "d41d8cd98f00b204e9800998ecf8427e".
Proof. vm_compute. reflexivity. Qed.

Example md5_abc :
  MD5.hexdigest (PyStr.encode "abc") = "900150983cd24fb0d6963f7d28e17f72".
Proof. vm_compute. reflexivity. Qed.

Example md5_56_bytes :
  MD5.hexdigest (repeat x61 56) = "3b0c8ac703f828b04c6c197006d17218".
Proof. vm_compute. reflexivity. Qed.

Example md5_120_bytes :
  MD5.hexdigest (repeat x61 120) = "5f61c0ccad4cac44c75ff505e1f1e537".
Proof. vm_compute. reflexivity. Qed.

(** ** The shape of a hexdigest *)

Lemma hex_digit_is_hex (n : Z) : PyStr.is_hex (MD5.hex_digit n) = true.
Proof.
  unfold MD5.hex_digit.
  destruct (Z.to_nat (n mod 16)) as [|k]; [reflexivity|].
  do 15 (destruct k as [|k]; [reflexivity|]).
  reflexivity.
Qed.

Lemma hex_of_bytes_length (bs : list Z) :
  String.length (MD5.hex_of_bytes bs) = 2 * List.length bs.
Proof.
  induction bs as [|b bs IH]; simpl; [reflexivity|].
  rewrite IH. lia.
Qed.

Lemma hex_of_bytes_all_hex (bs : list Z) :
  PyStr.all_hex (MD5.hex_of_bytes bs) = true.
Proof.
  induction bs as [|b bs IH]; simpl; [reflexivity|].
  now rewrite !hex_digit_is_hex, IH.
Qed.

Lemma hexdigest_length (data : list byte) :
  String.length (MD5.hexdigest data) = 32.
Proof.
  unfold MD5.hexdigest. rewrite hex_of_bytes_length.
  generalize (MD5.digest data). intros st.
  rewrite !length_app. unfold MD5.le_bytes.
  rewrite !length_map, !length_seq. reflexivity.
Qed.

Lemma hexdigest_all_hex (data : list byte) :
  PyStr.all_hex (MD5.hexdigest data) = true.
Proof. apply hex_of_bytes_all_hex. Qed.

Lemma take_length (n : nat) (s : string) :
  n <= String.length s -> String.length (PyStr.take n s) = n.
Proof.
  revert s. induction n as [|n IH]; intros [|c s] Hn; simpl in *;
    try reflexivity; try lia.
  rewrite IH; [reflexivity | lia].
Qed.

Lemma take_all_hex (n : nat) (s : string) :
  PyStr.all_hex s = true -> PyStr.all_hex (PyStr.take n s) = true.
Proof.
  revert s. induction n as [|n IH]; intros [|c s] Hs; simpl in *;
    try reflexivity.
  apply andb_true_iff in Hs as [Hc Hs]. now rewrite Hc, IH.
Qed.

(** ** get_extension_from_content_type *)

Lemma dict_get_in (k : string) (d : list (string * string)) (v : string) :
  dict_get k d = Some v -> In v (map snd d).
Proof.
  induction d as [|[k' v'] d IH]; simpl; [discriminate|].
  destruct (String.eqb k' k); [intros [= <-]; now left | right; auto].
Qed.

Lemma extension_is_known (content_type : option string) (e : string) :
  get_extension_from_content_type content_type = Some e ->
  In e known_extensions.
Proof.
  unfold get_extension_from_content_type.
  destruct content_type as [[|c ct]|]; try discriminate.
  intros H. apply dict_get_in in H. simpl in H. simpl. tauto.
Qed.

(** ** extract_filename *)

Section ExtractFilename.
Context {L : UrlLib}.

Lemma extract_filename_generic url content_type parsed_path :
  urlparse_path url = Ok parsed_path ->
  too_generic (PosixPath.basename (unquote parsed_path)) = true ->
  extract_filename url content_type
  = Ok ("ubuntu_image_"
        ++ PyStr.take 8 (MD5.hexdigest (PyStr.encode url))
        ++ match get_extension_from_content_type content_type with
           | Some e => e
           | None => ".jpg"
           end).
Proof.
  intros Hp Hg. unfold extract_filename. now rewrite Hp, Hg.
Qed.

(** C5, as the program has it: when the last path segment is empty, has
    no dot or is under 3 characters, the name is [ubuntu_image_], then
    the first 8 characters of the MD5 hexdigest of the URL, all of them
    hexadecimal digits, then the extension of the content type, [.jpg]
    when the table has none. *)
Theorem fallback_name url content_type parsed_path :
  urlparse_path url = Ok parsed_path ->
  too_generic (PosixPath.basename (unquote parsed_path)) = true ->
  exists url_hash extension,
    extract_filename url content_type
      = Ok ("ubuntu_image_" ++ url_hash ++ extension)
    /\ url_hash = PyStr.take 8 (MD5.hexdigest (PyStr.encode url))
    /\ String.length url_hash = 8
    /\ PyStr.all_hex url_hash = true
    /\ extension = match get_extension_from_content_type content_type with
                   | Some e => e
                   | None => ".jpg"
                   end
    /\ In extension known_extensions.
Proof.
  intros Hp Hg.
  eexists _, _. split; [apply (extract_filename_generic _ _ _ Hp Hg)|].
  split; [reflexivity|]. split.
  - apply take_length. rewrite hexdigest_length. lia.
  - split; [apply take_all_hex, hexdigest_all_hex|].
    split; [reflexivity|].
    destruct (get_extension_from_content_type content_type) as [e|] eqn:He.
    + exact (extension_is_known _ _ He).
    + simpl; tauto.
Qed.

(** C7: the call [extract_filename(url, content_type)] gives the same
    result in whatever world it runs, and leaves that world as it is. *)
Theorem extract_filename_deterministic url content_type (w1 w2 : World) :
  fst (lift (extract_filename url content_type) w1)
  = fst (lift (extract_filename url content_type) w2)
  /\ snd (lift (extract_filename url content_type) w1) = w1.
Proof. split; reflexivity. Qed.

End ExtractFilename.

Lemma fallback_name_witness :
  urlparse_path "http://example.com/a/" = Ok "/a/"
  /\ too_generic (PosixPath.basename (unquote "/a/")) = true
  /\ exists url_hash extension,
       extract_filename "http://example.com/a/" (Some "image/webp")
         = Ok ("ubuntu_image_" ++ url_hash ++ extension)
       /\ url_hash = PyStr.take 8 (MD5.hexdigest (PyStr.encode "http://example.com/a/"))
       /\ String.length url_hash = 8
       /\ PyStr.all_hex url_hash = true
       /\ extension = match get_extension_from_content_type (Some "image/webp") with
                      | Some e => e
                      | None => ".jpg"
                      end
       /\ In extension known_extensions.
Proof.
  split; [reflexivity|]. split; [reflexivity|].
  apply (fallback_name "http://example.com/a/" (Some "image/webp") "/a/");
    reflexivity.
Defined.

(** C5, as the specification words it: the synthesized name does not
    begin with [image_]. *)
Lemma fallback_name_is_not_image_prefixed :
  urlparse_path "http://example.com/a/" = Ok "/a/"
  /\ too_generic (PosixPath.basename (unquote "/a/")) = true
  /\ extract_filename "http://example.com/a/" (Some "image/webp")
     = Ok "ubuntu_image_1945d816.webp"
  /\ ~ (exists url_hash extension,
          extract_filename "http://example.com/a/" (Some "image/webp")
          = Ok ("image_" ++ url_hash ++ extension)).
Proof.
  assert (E : extract_filename "http://example.com/a/" (Some "image/webp")
              = Ok "ubuntu_image_1945d816.webp") by (vm_compute; reflexivity).
  repeat split; try reflexivity; try exact E.
  intros (h & e & Hne). rewrite E in Hne. discriminate Hne.
Qed.

(** ** download_image: the early exits *)

(** Runs the monad's operations in the goal. *)
Ltac run_monad :=
  cbv [bind ret raise print lift try_except handlers]; cbn [fst snd fs cwd server requests_sent stdout].

Section DownloadImage.
Context {L : UrlLib}.

(** C2: a URL that starts with neither [http://] nor [https://] makes
    [download_image] return [False] after the one line that asks for a
    valid URL; no request is sent and no file is touched. *)
Theorem invalid_scheme_rejected url directory w :
  valid_scheme url = false ->
  exists w',
    download_image url directory w = (Ok false, w')
    /\ stdout w' = (stdout w ++ [MsgInvalidScheme])%list
    /\ requests_sent w' = requests_sent w
    /\ fs w' = fs w.
Proof.
  intros Hs. unfold download_image. rewrite Hs. simpl.
  eexists. split; [reflexivity|]. simpl. auto.
Qed.

(** The run of [download_image] up to the content-type check. *)
Lemma download_image_response url directory w r :
  valid_scheme url = true ->
  server w url = NetOk r ->
  status_passes r = true ->
  download_image url directory w
  = try_except (save_image url directory r) handlers
      (mkWorld (fs w) (cwd w) (server w) (requests_sent w ++ [url])%list
               (stdout w ++ [MsgConnecting url])%list).
Proof.
  intros Hs Hr Hst. unfold download_image. rewrite Hs. simpl.
  unfold bind at 1. simpl.
  unfold try_except, bind, requests_get. simpl. rewrite Hr.
  unfold raise_for_status. unfold status_passes in Hst.
  apply negb_true_iff in Hst. rewrite Hst. reflexivity.
Qed.

Lemma download_image_http_error url directory w r :
  valid_scheme url = true ->
  server w url = NetOk r ->
  status_passes r = false ->
  download_image url directory w
  = (Ok false,
     mkWorld (fs w) (cwd w) (server w) (requests_sent w ++ [url])%list
       (stdout w ++ [MsgConnecting url;
                     MsgConnectionError (HTTPError (status_code r))])%list).
Proof.
  intros Hs Hr Hst. unfold download_image. rewrite Hs. simpl.
  unfold bind at 1. simpl.
  unfold try_except, bind, requests_get. simpl. rewrite Hr.
  unfold raise_for_status. unfold status_passes in Hst.
  apply negb_false_iff in Hst. rewrite Hst. run_monad.
  now rewrite <- app_assoc.
Qed.

Lemma download_image_not_image url directory w r :
  valid_scheme url = true ->
  server w url = NetOk r ->
  PyStr.startswith "image/" (content_type_of r) = false ->
  exists w',
    download_image url directory w = (Ok false, w')
    /\ fs w' = fs w
    /\ (status_passes r = true ->
        stdout w' = (stdout w ++ [MsgConnecting url;
                                  MsgNotImage (content_type_of r)])%list).
Proof.
  intros Hs Hr Hct. destruct (status_passes r) eqn:Hst.
  - rewrite (download_image_response _ _ _ _ Hs Hr Hst).
    unfold save_image. rewrite Hct. run_monad.
    eexists. split; [reflexivity|]. simpl. split; [reflexivity|].
    intros _. now rewrite <- app_assoc.
  - rewrite (download_image_http_error _ _ _ _ Hs Hr Hst).
    eexists. split; [reflexivity|]. simpl. split; [reflexivity|discriminate].
Qed.

(** C3: when the content type of the response, cut at its first
    semicolon, does not start with [image/], [download_image] returns
    [False] and the files are as before; unless the status is an HTTP
    error, the line printed is the one that names the content type. *)
Theorem not_an_image_rejected url directory w r :
  valid_scheme url = true ->
  server w url = NetOk r ->
  PyStr.startswith "image/" (content_type_of r) = false ->
  exists w',
    download_image url directory w = (Ok false, w')
    /\ fs w' = fs w
    /\ (status_passes r = true ->
        stdout w' = (stdout w ++ [MsgConnecting url;
                                  MsgNotImage (content_type_of r)])%list).
Proof. exact (download_image_not_image url directory w r). Qed.

(** C9: a response without a [Content-Type] header has the empty
    content type, which is not an image: [download_image] returns
    [False] and the files are as before. *)
Theorem missing_content_type_rejected url directory w r :
  valid_scheme url = true ->
  server w url = NetOk r ->
  headers_get "Content-Type" (headers r) = None ->
  content_type_of r = ""
  /\ exists w',
       download_image url directory w = (Ok false, w')
       /\ fs w' = fs w
       /\ (status_passes r = true ->
           stdout w' = (stdout w ++ [MsgConnecting url; MsgNotImage ""])%list).
Proof.
  intros Hs Hr Hh.
  assert (Hct : content_type_of r = "")
    by (unfold content_type_of; now rewrite Hh).
  split; [exact Hct|].
  destruct (download_image_not_image url directory w r Hs Hr) as (w' & H1 & H2 & H3).
  - now rewrite Hct.
  - exists w'. rewrite Hct in H3. auto.
Qed.

(** C4, as the program has it: a response whose status is from 400 to
    599 makes [download_image] return [False]; the line printed carries
    the HTTP error with that status, and the files are as before. *)
Theorem http_error_status_rejected url directory w r :
  valid_scheme url = true ->
  server w url = NetOk r ->
  (400 <= status_code r < 600)%Z ->
  exists w',
    download_image url directory w = (Ok false, w')
    /\ fs w' = fs w
    /\ stdout w' = (stdout w ++ [MsgConnecting url;
                                 MsgConnectionError (HTTPError (status_code r))])%list.
Proof.
  intros Hs Hr Hst.
  rewrite (download_image_http_error _ _ _ _ Hs Hr).
  - eexists. split; [reflexivity|]. simpl. auto.
  - unfold status_passes. apply negb_false_iff, andb_true_iff.
    split; [apply Z.leb_le | apply Z.ltb_lt]; lia.
Qed.

End DownloadImage.

Lemma invalid_scheme_rejected_witness :
  valid_scheme "ftp://example.com/cat.png" = false
  /\ exists w',
       download_image "ftp://example.com/cat.png" "Fetched_Images"
         (Scenario.start (Scenario.always (Scenario.png 200))) = (Ok false, w')
       /\ stdout w' = [MsgInvalidScheme]
       /\ requests_sent w' = []
       /\ fs w' = Scenario.files.
Proof.
  split; [reflexivity|].
  apply (invalid_scheme_rejected "ftp://example.com/cat.png" "Fetched_Images"
           (Scenario.start (Scenario.always (Scenario.png 200)))).
  reflexivity.
Defined.

Lemma not_an_image_rejected_witness :
  valid_scheme "http://example.com/index.html" = true
  /\ PyStr.startswith "image/" (content_type_of Scenario.html) = false
  /\ exists w',
       download_image "http://example.com/index.html" "Fetched_Images"
         (Scenario.start (Scenario.always Scenario.html)) = (Ok false, w')
       /\ fs w' = Scenario.files
       /\ (status_passes Scenario.html = true ->
           stdout w' = [MsgConnecting "http://example.com/index.html";
                        MsgNotImage "text/html"]).
Proof.
  split; [reflexivity|]. split; [reflexivity|].
  apply (not_an_image_rejected "http://example.com/index.html" "Fetched_Images"
           (Scenario.start (Scenario.always Scenario.html)) Scenario.html);
    reflexivity.
Defined.

Lemma missing_content_type_rejected_witness :
  headers_get "Content-Type" (headers Scenario.bare) = None
  /\ content_type_of Scenario.bare = ""
  /\ exists w',
       download_image "https://example.com/cat.png" "Fetched_Images"
         (Scenario.start (Scenario.always Scenario.bare)) = (Ok false, w')
       /\ fs w' = Scenario.files
       /\ (status_passes Scenario.bare = true ->
           stdout w' = [MsgConnecting "https://example.com/cat.png";
                        MsgNotImage ""]).
Proof.
  split; [reflexivity|].
  apply (missing_content_type_rejected "https://example.com/cat.png"
           "Fetched_Images" (Scenario.start (Scenario.always Scenario.bare))
           Scenario.bare); reflexivity.
Defined.

Lemma http_error_status_rejected_witness :
  (400 <= status_code (Scenario.png 404) < 600)%Z
  /\ exists w',
       download_image "http://example.com/cat.png" "Fetched_Images"
         (Scenario.start (Scenario.always (Scenario.png 404))) = (Ok false, w')
       /\ fs w' = Scenario.files
       /\ stdout w' = [MsgConnecting "http://example.com/cat.png";
                       MsgConnectionError (HTTPError 404)].
Proof.
  split; [simpl; lia|].
  apply (http_error_status_rejected "http://example.com/cat.png"
           "Fetched_Images" (Scenario.start (Scenario.always (Scenario.png 404)))
           (Scenario.png 404)); [reflexivity | reflexivity | simpl; lia].
Defined.

(** C4, as the specification words it: a status outside 200-299 that is
    no HTTP error is let through.  The answer 304 with an image content
    type is saved, and [download_image] returns [True]. *)
Lemma status_304_is_saved :
  let w := Scenario.start (Scenario.always Scenario.not_modified) in
  let run := download_image "http://example.com/pics/cat.png" "Fetched_Images" w in
  ~ (200 <= status_code Scenario.not_modified < 300)%Z
  /\ server w "http://example.com/pics/cat.png" = NetOk Scenario.not_modified
  /\ fst run = Ok true
  /\ fs (snd run)
     = (Scenario.files
        ++ [(["srv"; "Fetched_Images"; "cat.png"], File (mkFile [] true true))])%list
  /\ fs (snd run) <> fs w.
Proof.
  cbv zeta. split; [simpl; lia|]. split; [reflexivity|].
  split; [vm_compute; reflexivity|].
  split; [vm_compute; reflexivity|].
  vm_compute. discriminate.
Qed.

(** ** is_duplicate_image *)

Lemma matches_true_iff (w : World) (directory content_hash name : string) :
  matches (fs w) (cwd w) directory content_hash name = true
  <-> exists data,
        os_path_isfile (PosixPath.join directory name) w = (Ok true, w)
        /\ read_file (PosixPath.join directory name) w = (Ok data, w)
        /\ MD5.hexdigest data = content_hash.
Proof.
  unfold matches, os_path_isfile, read_file.
  destruct (Posix.isfile_at (fs w) (cwd w) (PosixPath.join directory name));
    cbn [andb].
  - destruct (Posix.read_at (fs w) (cwd w) (PosixPath.join directory name))
      as [data|e].
    + split.
      * intros H. apply String.eqb_eq in H. now exists data.
      * intros (data' & _ & [= <-] & H). now apply String.eqb_eq.
    + split; [discriminate | intros (data & _ & H & _); discriminate H].
  - split; [discriminate | intros (data & H & _); discriminate H].
Qed.

(** One turn of the loop: the entry is reported when it matches, and the
    loop goes on in every other case, a failed read among them. *)
Lemma check_entry_spec (directory content_hash name : string) (w : World) :
  check_entry directory content_hash name w
  = (Ok (if matches (fs w) (cwd w) directory content_hash name
         then Some (true, Some name) else None), w).
Proof.
  unfold check_entry, matches, bind, os_path_isfile,
    Posix.isfile_at, Posix.read_at.
  destruct (Posix.resolve_at (fs w) (cwd w) (PosixPath.join directory name))
    as [[|c rp]|e] eqn:Hres; try reflexivity.
  destruct (Posix.lookup (fs w) (c :: rp)) as [[|f]|] eqn:Hlook;
    try reflexivity.
  unfold try_except, bind, read_file, Posix.read_at. rewrite Hres, Hlook.
  cbn [andb]. destruct (readable f); [|reflexivity].
  now destruct (String.eqb (MD5.hexdigest (content f)) content_hash).
Qed.

Lemma scan_spec (directory content_hash : string) (entries : list string)
      (w : World) :
  scan directory content_hash entries w
  = (Ok (first_match (fs w) (cwd w) directory content_hash entries), w).
Proof.
  unfold first_match.
  induction entries as [|name rest IH]; cbn [scan find]; [reflexivity|].
  unfold bind. rewrite check_entry_spec.
  destruct (matches (fs w) (cwd w) directory content_hash name);
    [reflexivity | exact IH].
Qed.

Lemma is_duplicate_image_spec (directory : string) (candidate : list byte)
      (w : World) :
  is_duplicate_image directory candidate w
  = (find_duplicate (fs w) (cwd w) directory candidate, w).
Proof.
  unfold is_duplicate_image, find_duplicate, bind, os_listdir.
  destruct (Posix.listdir_at (fs w) (cwd w) directory) as [entries|e].
  - apply scan_spec.
  - reflexivity.
Qed.

(** C10: [is_duplicate_image] only reads.  The world after the call is
    the world before it, whatever the directory holds and whatever the
    candidate is: the same entries with the same bytes. *)
Theorem is_duplicate_image_read_only (directory : string)
        (candidate : list byte) (w : World) :
  snd (is_duplicate_image directory candidate w) = w
  /\ fs (snd (is_duplicate_image directory candidate w)) = fs w.
Proof.
  rewrite is_duplicate_image_spec. split; reflexivity.
Qed.

(** C8: a file of the listing whose read raises [IOError] does not end
    the scan.  When the listing also holds a file that can be read and
    that has the MD5 of the candidate, [is_duplicate_image] returns
    [True] with the name of a file that was read and has that MD5. *)
Theorem read_error_does_not_abort_scan
        (directory : string) (candidate : list byte) (w : World)
        (entries : list string) (bad good : string) (code : errno)
        (data : list byte) :
  os_listdir directory w = (Ok entries, w) ->
  In bad entries ->
  os_path_isfile (PosixPath.join directory bad) w = (Ok true, w) ->
  read_file (PosixPath.join directory bad) w = (Raise (OSError code), w) ->
  In good entries ->
  os_path_isfile (PosixPath.join directory good) w = (Ok true, w) ->
  read_file (PosixPath.join directory good) w = (Ok data, w) ->
  MD5.hexdigest data = MD5.hexdigest candidate ->
  exists found data',
    is_duplicate_image directory candidate w = (Ok (true, Some found), w)
    /\ In found entries
    /\ found <> bad
    /\ read_file (PosixPath.join directory found) w = (Ok data', w)
    /\ MD5.hexdigest data' = MD5.hexdigest candidate.
Proof.
  intros Hls Hbad Hbf Hbr Hgood Hgf Hgr Hgh.
  rewrite is_duplicate_image_spec. unfold find_duplicate.
  injection Hls as Hls. rewrite Hls. unfold first_match.
  destruct (find (matches (fs w) (cwd w) directory (MD5.hexdigest candidate))
                 entries) as [found|] eqn:Hfind.
  - apply find_some in Hfind as [Hin Hm].
    apply matches_true_iff in Hm as (data' & _ & Hr & Hh).
    exists found, data'. repeat split; auto.
    intros ->. rewrite Hbr in Hr. discriminate Hr.
  - exfalso. pose proof (find_none _ _ Hfind good Hgood) as Hno.
    assert (Hyes : matches (fs w) (cwd w) directory (MD5.hexdigest candidate)
                           good = true)
      by (apply matches_true_iff; now exists data).
    congruence.
Qed.

Lemma read_error_does_not_abort_scan_witness :
  let w := mkWorld Scenario.unreadable_first ["srv"]
                   (Scenario.always (Scenario.png 200)) [] [] in
  os_listdir "Fetched_Images" w = (Ok ["a.png"; "b.png"], w)
  /\ read_file (PosixPath.join "Fetched_Images" "a.png") w
     = (Raise (OSError EACCES), w)
  /\ read_file (PosixPath.join "Fetched_Images" "b.png") w
     = (Ok Scenario.png_bytes, w)
  /\ exists found data',
       is_duplicate_image "Fetched_Images" Scenario.png_bytes w
       = (Ok (true, Some found), w)
       /\ In found ["a.png"; "b.png"]
       /\ found <> "a.png"
       /\ read_file (PosixPath.join "Fetched_Images" found) w = (Ok data', w)
       /\ MD5.hexdigest data' = MD5.hexdigest Scenario.png_bytes.
Proof.
  cbv zeta. split; [reflexivity|]. split; [reflexivity|]. split; [reflexivity|].
  apply (read_error_does_not_abort_scan "Fetched_Images" Scenario.png_bytes _
           ["a.png"; "b.png"] "a.png" "b.png" EACCES Scenario.png_bytes);
    try reflexivity; simpl; auto.
Defined.

Example unreadable_first_finds_second :
  fst (is_duplicate_image "Fetched_Images" Scenario.png_bytes
         (mkWorld Scenario.unreadable_first ["srv"]
                  (Scenario.always (Scenario.png 200)) [] []))
  = Ok (true, Some "b.png").
Proof. vm_compute. reflexivity. Qed.

(** ** Strings and paths *)

Lemma split_nonempty (sep : ascii) (s : string) : PyStr.split sep s <> [].
Proof.
  destruct s as [|c s]; simpl; [discriminate|].
  destruct (Ascii.eqb c sep); [discriminate|].
  destruct (PyStr.split sep s); discriminate.
Qed.

Lemma split_no_sep (sep : ascii) (s : string) :
  PyStr.contains sep s = false -> PyStr.split sep s = [s].
Proof.
  induction s as [|c s IH]; simpl; [reflexivity|].
  intros H. apply orb_false_iff in H as [Hc Hs].
  rewrite Hc, (IH Hs). reflexivity.
Qed.

Lemma split_app_sep (sep : ascii) (a n : string) :
  PyStr.contains sep n = false ->
  PyStr.split sep (a ++ String sep n) = (PyStr.split sep a ++ [n])%list.
Proof.
  intros Hn. induction a as [|c a IH]; simpl.
  - rewrite Ascii.eqb_refl, (split_no_sep _ _ Hn). reflexivity.
  - destruct (Ascii.eqb c sep); rewrite IH; [reflexivity|].
    pose proof (split_nonempty sep a) as Hne.
    destruct (PyStr.split sep a) as [|x xs]; [contradiction|reflexivity].
Qed.

Lemma contains_app (c : ascii) (a b : string) :
  PyStr.contains c (a ++ b) = PyStr.contains c a || PyStr.contains c b.
Proof.
  induction a as [|x a IH]; simpl; [reflexivity|].
  now rewrite IH, orb_assoc.
Qed.

Lemma endswith_slash_app (a : string) :
  PosixPath.endswith_slash a = true -> exists a', a = a' ++ "/".
Proof.
  induction a as [|c a IH]; [discriminate|].
  destruct a as [|c' a].
  - simpl. intros H. apply Ascii.eqb_eq in H. subst c. now exists "".
  - intros H. destruct (IH H) as (a' & Ha').
    exists (String c a'). simpl. now rewrite <- Ha'.
Qed.

Lemma string_app_assoc (a b c : string) : (a ++ b) ++ c = a ++ b ++ c.
Proof. induction a as [|x a IH]; simpl; [reflexivity | now rewrite IH]. Qed.

Lemma startswith_slash_app (a b : string) :
  a <> "" -> PyStr.startswith "/" (a ++ b) = PyStr.startswith "/" a.
Proof.
  destruct a as [|c a]; [contradiction|]. intros _. reflexivity.
Qed.

(** What a name that passes [entry_name] is and is not. *)
Lemma entry_name_inv (n : string) :
  PosixPath.entry_name n = true ->
  n <> "" /\ PyStr.contains "/" n = false /\ PyStr.contains zero n = false
  /\ n <> "." /\ n <> "..".
Proof.
  unfold PosixPath.entry_name. intros H.
  repeat (apply andb_true_iff in H as [H ?]).
  repeat match goal with
         | X : negb _ = true |- _ => apply negb_true_iff in X
         end.
  repeat split; auto; intros ->; discriminate.
Qed.

Lemma enter_entry_name (cur : path) (n : string) :
  PosixPath.entry_name n = true -> Posix.enter cur n = (cur ++ [n])%list.
Proof.
  intros H. apply entry_name_inv in H as (H1 & _ & _ & H2 & H3).
  unfold Posix.enter.
  apply String.eqb_neq in H1, H2, H3. now rewrite H1, H2, H3.
Qed.

Lemma walk_app (t : tree) (cur : path) (xs : list string) (y : string) :
  Posix.walk t cur (xs ++ [y])
  = match Posix.walk t cur xs with
    | Ok c => Posix.walk t c [y]
    | Raise e => Raise e
    end.
Proof.
  revert cur. induction xs as [|x xs IH]; intros cur; simpl.
  - reflexivity.
  - destruct (Posix.is_dir t cur); [apply IH | reflexivity].
Qed.

(** The path of an entry of a directory that exists: the resolved
    directory, then the name. *)
Lemma resolve_join (t : tree) (wd : path) (directory name : string) (rd : path) :
  PosixPath.entry_name name = true ->
  Posix.resolve_at t wd directory = Ok rd ->
  Posix.is_dir t rd = true ->
  Posix.resolve_at t wd (PosixPath.join directory name) = Ok (rd ++ [name])%list.
Proof.
  intros Hn Hres Hdir.
  pose proof (enter_entry_name rd name Hn) as Henter.
  pose proof (entry_name_inv name Hn) as (Hne & Hslash & Hzero & _ & _).
  unfold Posix.resolve_at in Hres.
  destruct (String.eqb directory "") eqn:Hd; [discriminate|].
  destruct (PyStr.contains zero directory) eqn:Hz; [discriminate|].
  apply String.eqb_neq in Hd.
  assert (Hstart : PyStr.startswith "/" name = false).
  { destruct name as [|c name]; [reflexivity|].
    cbn [PyStr.startswith PyStr.contains] in *.
    apply orb_false_iff in Hslash as [Hc _].
    rewrite Ascii.eqb_sym, Hc. reflexivity. }
  unfold PosixPath.join. rewrite Hstart.
  assert (Hd' : String.eqb directory "" = false) by now apply String.eqb_neq.
  rewrite Hd'. cbn [orb].
  destruct (PosixPath.endswith_slash directory) eqn:Hend.
  - destruct (endswith_slash_app _ Hend) as (d' & ->).
    unfold Posix.resolve_at.
    assert (Hne' : (d' ++ "/") ++ name <> "") by (now destruct d').
    apply String.eqb_neq in Hne'. rewrite Hne'.
    rewrite contains_app, Hz, Hzero. cbn [orb].
    rewrite (startswith_slash_app _ name Hd).
    rewrite string_app_assoc. cbn [append].
    rewrite (split_app_sep "/" d' name Hslash), walk_app.
    rewrite (split_app_sep "/" d' "" eq_refl), walk_app in Hres.
    destruct (Posix.walk t _ (PyStr.split "/" d')) as [c|e]; [|discriminate].
    simpl in Hres. simpl.
    destruct (Posix.is_dir t c) eqn:Hc; [|discriminate].
    injection Hres as Hres. change (Posix.enter c "") with c in Hres.
    subst c. now rewrite Henter.
  - unfold Posix.resolve_at.
    assert (Hne' : directory ++ "/" ++ name <> "") by (now destruct directory).
    apply String.eqb_neq in Hne'. rewrite Hne'.
    rewrite contains_app, Hz. cbn [orb PyStr.contains append].
    rewrite Hzero. cbn [orb Ascii.eqb].
    rewrite (startswith_slash_app _ _ Hd).
    rewrite (split_app_sep "/" directory name Hslash), walk_app, Hres.
    simpl. now rewrite Hdir, Henter.
Qed.

(** ** The tree *)

Lemma path_eqb_eq (p q : path) : Posix.path_eqb p q = true <-> p = q.
Proof.
  unfold Posix.path_eqb.
  destruct (list_eq_dec string_dec p q); split; auto; discriminate.
Qed.

Lemma path_eqb_refl (p : path) : Posix.path_eqb p p = true.
Proof. now apply path_eqb_eq. Qed.

Lemma path_eqb_neq (p q : path) : Posix.path_eqb p q = false <-> p <> q.
Proof.
  unfold Posix.path_eqb.
  destruct (list_eq_dec string_dec p q); split; auto; try discriminate.
  contradiction.
Qed.

Lemma child_name_spec (d p : path) (n : string) :
  Posix.child_name d p = Some n <-> p = (d ++ [n])%list.
Proof.
  revert p. induction d as [|a d IH]; intros p.
  - destruct p as [|b [|b' p]]; simpl; split; try discriminate;
      try (intros [= ->]; reflexivity).
  - destruct p as [|b p]; simpl; [split; discriminate|].
    destruct (String.eqb a b) eqn:Hab.
    + apply String.eqb_eq in Hab. subst b. rewrite IH.
      split; [intros ->; reflexivity | now intros [= ->]].
    + apply String.eqb_neq in Hab.
      split; [discriminate | intros [= -> _]; contradiction].
Qed.

Lemma lookup_in (t : tree) (p : path) (nd : node) :
  Posix.lookup t p = Some nd -> In (p, nd) t.
Proof.
  induction t as [|[q m] t IH]; simpl; [discriminate|].
  destruct (Posix.path_eqb q p) eqn:Hq.
  - apply path_eqb_eq in Hq. intros [= ->]. left. now subst.
  - right. auto.
Qed.

(** The listing of a directory names the paths that the tree holds
    right below it. *)
Lemma in_names_in (t : tree) (d : path) (n : string) :
  In n (Posix.names_in d t) <-> Posix.lookup t (d ++ [n])%list <> None.
Proof.
  induction t as [|[q m] t IH]; simpl; [tauto|].
  destruct (Posix.path_eqb q (d ++ [n])%list) eqn:Hq.
  - apply path_eqb_eq in Hq.
    apply child_name_spec in Hq. rewrite Hq.
    split; [discriminate | intros _; now left].
  - apply path_eqb_neq in Hq.
    destruct (Posix.child_name d q) as [m'|] eqn:Hc; [|exact IH].
    apply child_name_spec in Hc. simpl. rewrite <- IH.
    split; [intros [->|H]; [contradiction | exact H] | now right].
Qed.

Lemma lookup_update (t : tree) (p q : path) (nd : node) :
  Posix.lookup (Posix.update t p nd) q
  = if Posix.path_eqb p q
    then match Posix.lookup t p with
         | Some _ => Some nd
         | None => None
         end
    else Posix.lookup t q.
Proof.
  induction t as [|[r m] t IH]; simpl.
  - now destruct (Posix.path_eqb p q).
  - destruct (Posix.path_eqb r p) eqn:Hrp; simpl.
    + apply path_eqb_eq in Hrp. subst r.
      now destruct (Posix.path_eqb p q).
    + rewrite IH. destruct (Posix.path_eqb r q) eqn:Hrq; [|reflexivity].
      destruct (Posix.path_eqb p q) eqn:Hpq; [|reflexivity].
      apply path_eqb_eq in Hrq, Hpq. subst. now rewrite path_eqb_refl in Hrp.
Qed.

Lemma lookup_app (t t' : tree) (q : path) :
  Posix.lookup (t ++ t')%list q
  = match Posix.lookup t q with
    | Some nd => Some nd
    | None => Posix.lookup t' q
    end.
Proof.
  induction t as [|[r m] t IH]; simpl; [reflexivity|].
  now destruct (Posix.path_eqb r q).
Qed.

Lemma wf_tree_names (t : tree) (d : path) (n : string) :
  wf_tree t = true -> In n (Posix.names_in d t) ->
  PosixPath.entry_name n = true.
Proof.
  intros Hwf Hin. apply in_names_in in Hin.
  destruct (Posix.lookup t (d ++ [n])%list) as [nd|] eqn:Hl; [|contradiction].
  apply lookup_in in Hl.
  unfold wf_tree in Hwf. rewrite forallb_forall in Hwf.
  specialize (Hwf _ Hl). simpl in Hwf.
  rewrite forallb_forall in Hwf. apply Hwf, in_or_app. right. now left.
Qed.

(** What [write_at] does to the tree: the node at the resolved path is a
    file with the data, every other node is as before, and no directory
    was replaced. *)
Lemma write_at_lookup (t t1 : tree) (wd : path) (p : string)
      (data : list byte) (rp : path) :
  Posix.resolve_at t wd p = Ok rp ->
  Posix.write_at t wd p data = Ok t1 ->
  rp <> []
  /\ Posix.lookup t rp <> Some Dir
  /\ exists f, content f = data
       /\ forall q, Posix.lookup t1 q
                    = if Posix.path_eqb rp q then Some (File f)
                      else Posix.lookup t q.
Proof.
  intros Hres. unfold Posix.write_at. rewrite Hres.
  destruct rp as [|c rp]; [discriminate|].
  destruct (Posix.lookup t (c :: rp)) as [[|f]|] eqn:Hl; [discriminate| |].
  - destruct (writable f) eqn:Hw; [|discriminate]. intros [= <-].
    split; [discriminate|]. split; [discriminate|].
    exists (mkFile data (readable f) true). split; [reflexivity|]. intros q.
    rewrite lookup_update, Hl. reflexivity.
  - intros [= <-]. split; [discriminate|]. split; [discriminate|].
    exists (mkFile data true true). split; [reflexivity|]. intros q.
    rewrite lookup_app. simpl.
    destruct (Posix.path_eqb (c :: rp) q) eqn:Hq.
    + apply path_eqb_eq in Hq. subst q. now rewrite Hl.
    + now destruct (Posix.lookup t q).
Qed.

Section Written.
Variables (t t1 : tree) (rp : path) (f : file).
Hypothesis Hrp : rp <> [].
Hypothesis Hnodir : Posix.lookup t rp <> Some Dir.
Hypothesis Hlook : forall q,
  Posix.lookup t1 q
  = if Posix.path_eqb rp q then Some (File f) else Posix.lookup t q.

Lemma written_is_dir (q : path) : Posix.is_dir t1 q = Posix.is_dir t q.
Proof.
  unfold Posix.is_dir. destruct q as [|c q]; [reflexivity|].
  rewrite Hlook. destruct (Posix.path_eqb rp (c :: q)) eqn:Hq; [|reflexivity].
  apply path_eqb_eq in Hq. subst rp.
  destruct (Posix.lookup t (c :: q)) as [[|g]|]; try reflexivity.
  now contradiction Hnodir.
Qed.

Lemma written_walk (cur : path) (xs : list string) (r : path) :
  Posix.walk t1 cur xs = Ok r <-> Posix.walk t cur xs = Ok r.
Proof.
  revert cur. induction xs as [|x xs IH]; intros cur; simpl; [tauto|].
  rewrite written_is_dir.
  destruct (Posix.is_dir t cur); [apply IH | split; discriminate].
Qed.

Lemma written_resolve (wd : path) (p : string) (r : path) :
  Posix.resolve_at t1 wd p = Ok r <-> Posix.resolve_at t wd p = Ok r.
Proof.
  unfold Posix.resolve_at.
  destruct (String.eqb p ""); [split; discriminate|].
  destruct (PyStr.contains zero p); [split; discriminate|].
  apply written_walk.
Qed.

End Written.

(** ** The scan after a write *)

Lemma find_unique {A} (f : A -> bool) (l : list A) (x : A) :
  In x l -> f x = true ->
  (forall y, In y l -> f y = true -> y = x) ->
  find f l = Some x.
Proof.
  induction l as [|a l IH]; simpl; [contradiction|].
  intros Hin Hx Huniq. destruct (f a) eqn:Ha.
  - f_equal. apply Huniq; auto.
  - destruct Hin as [->|Hin]; [congruence|]. apply IH; auto.
Qed.

(** Whether an entry of an existing directory matches, read off the
    tree. *)
Lemma matches_entry (t : tree) (wd : path) (directory content_hash name : string)
      (rd : path) :
  PosixPath.entry_name name = true ->
  Posix.resolve_at t wd directory = Ok rd ->
  Posix.is_dir t rd = true ->
  matches t wd directory content_hash name
  = match Posix.lookup t (rd ++ [name])%list with
    | Some (File f) =>
        readable f && String.eqb (MD5.hexdigest (content f)) content_hash
    | _ => false
    end.
Proof.
  intros Hn Hres Hdir.
  unfold matches, Posix.isfile_at, Posix.read_at.
  rewrite (resolve_join _ _ _ _ _ Hn Hres Hdir).
  destruct (rd ++ [name])%list as [|c rp] eqn:Hp;
    [now destruct rd|].
  destruct (Posix.lookup t (c :: rp)) as [[|f]|]; try reflexivity.
  cbn [andb]. now destruct (readable f).
Qed.

(** The heart of idempotence.  A scan found no duplicate of [candidate];
    the candidate was then written under a name of the directory, and
    the file can be read back: the next scan reports that name. *)
Lemma scan_after_write (t t1 : tree) (wd : path) (directory filename : string)
      (candidate data : list byte) (existing : option string) :
  wf_tree t = true ->
  PosixPath.entry_name filename = true ->
  find_duplicate t wd directory candidate = Ok (false, existing) ->
  Posix.write_at t wd (PosixPath.join directory filename) candidate = Ok t1 ->
  Posix.read_at t1 wd (PosixPath.join directory filename) = Ok data ->
  find_duplicate t1 wd directory candidate = Ok (true, Some filename).
Proof.
  intros Hwf Hn Hscan Hwrite Hread.
  unfold find_duplicate, Posix.listdir_at in Hscan.
  destruct (Posix.resolve_at t wd directory) as [rd|e] eqn:Hres; [|discriminate].
  destruct (Posix.is_dir t rd) eqn:Hdir; [|discriminate].
  injection Hscan as Hscan. unfold first_match in Hscan.
  destruct (find _ (Posix.names_in rd t)) as [x|] eqn:Hfind; [discriminate|].
  pose proof (resolve_join _ _ _ _ _ Hn Hres Hdir) as Hrp.
  destruct (write_at_lookup _ _ _ _ _ _ Hrp Hwrite)
    as (Hne & Hnodir & f & Hf & Hlook).
  assert (Hres1 : Posix.resolve_at t1 wd directory = Ok rd)
    by (apply (written_resolve t t1 _ f Hne Hnodir Hlook); exact Hres).
  assert (Hdir1 : Posix.is_dir t1 rd = true)
    by (rewrite (written_is_dir t t1 _ f Hne Hnodir Hlook); exact Hdir).
  assert (Hsaved : Posix.lookup t1 (rd ++ [filename])%list = Some (File f))
    by (rewrite Hlook, path_eqb_refl; reflexivity).
  assert (Hreadable : readable f = true).
  { unfold Posix.read_at in Hread.
    rewrite (resolve_join _ _ _ _ _ Hn Hres1 Hdir1) in Hread.
    destruct (rd ++ [filename])%list as [|c rp]; [now contradiction Hne|].
    rewrite Hsaved in Hread. now destruct (readable f). }
  unfold find_duplicate, Posix.listdir_at. rewrite Hres1, Hdir1.
  unfold first_match.
  rewrite (find_unique _ _ filename); [reflexivity | | |].
  - apply in_names_in. rewrite Hsaved. discriminate.
  - rewrite (matches_entry _ _ _ _ _ _ Hn Hres1 Hdir1), Hsaved, Hreadable, Hf.
    apply String.eqb_refl.
  - intros y Hy Hmatch.
    destruct (string_dec y filename) as [|Hneq]; [assumption|exfalso].
    apply in_names_in in Hy. rewrite Hlook in Hy.
    destruct (Posix.path_eqb (rd ++ [filename])%list (rd ++ [y])%list) eqn:Heq.
    { apply path_eqb_eq, app_inj_tail in Heq. destruct Heq. congruence. }
    apply in_names_in in Hy.
    pose proof (wf_tree_names _ _ _ Hwf Hy) as Hyn.
    rewrite (matches_entry _ _ _ _ _ _ Hyn Hres1 Hdir1), Hlook, Heq in Hmatch.
    rewrite <- (matches_entry _ _ _ _ _ _ Hyn Hres Hdir) in Hmatch.
    pose proof (find_none _ _ Hfind y Hy) as Hno. congruence.
Qed.

(** ** download_image: the whole run *)

Lemma add_out_nil (w : World) : add_out w [] = w.
Proof. destruct w. unfold add_out. simpl. now rewrite app_nil_r. Qed.

Lemma add_out_app (w : World) (a b : list msg) :
  add_out (add_out w a) b = add_out w (a ++ b)%list.
Proof. unfold add_out. simpl. now rewrite app_assoc. Qed.

Lemma report_headers_run (r : response) (hs : list string) (w : World) :
  exists out, for_each hs (report_header r) w = (Ok tt, add_out w out).
Proof.
  revert w. induction hs as [|h hs IH]; intros w.
  - exists []. simpl. now rewrite add_out_nil.
  - simpl. unfold bind, report_header.
    destruct (headers_get h (headers r)) as [[|c v]|].
    + exact (IH w).
    + destruct (IH (add_out w [MsgSecurityHeader h (String c v)])) as (out & Hout).
      exists ([MsgSecurityHeader h (String c v)] ++ out)%list.
      rewrite <- add_out_app. exact Hout.
    + exact (IH w).
Qed.

Lemma last_saved_duplicate (out : list msg) (existing : option string) :
  last_saved (out ++ [MsgDuplicate existing]) = None.
Proof. unfold last_saved. now rewrite rev_app_distr. Qed.

Lemma last_saved_fetched (out : list msg) (filename directory : string)
      (size : nat) :
  last_saved (out ++ [MsgFetched filename size; MsgSaved directory])
  = Some filename.
Proof. unfold last_saved. now rewrite rev_app_distr. Qed.

Lemma last_saved_error (out : list msg) (m : msg) :
  (forall d, m <> MsgSaved d) -> last_saved (out ++ [m]) = None.
Proof.
  intros Hm. unfold last_saved. rewrite rev_app_distr. simpl.
  destruct m; try reflexivity. now contradiction (Hm directory).
Qed.

Section WholeRun.
Context {L : UrlLib}.

(** The run of [save_image] on a response that is an image, in terms of
    the files alone. *)
Lemma save_image_run url directory r w :
  PyStr.startswith "image/" (content_type_of r) = true ->
  exists out,
    save_image url directory r w
    = let wb := add_out w out in
      match extract_filename url (Some (content_type_of r)) with
      | Raise e => (Raise e, wb)
      | Ok filename =>
          match find_duplicate (fs w) (cwd w) directory (body r) with
          | Raise e => (Raise e, wb)
          | Ok (true, existing) =>
              (Ok true, add_out wb [MsgDuplicate existing])
          | Ok (false, _) =>
              let filepath := PosixPath.join directory filename in
              match Posix.write_at (fs w) (cwd w) filepath (body r) with
              | Raise e => (Raise e, wb)
              | Ok t1 =>
                  match Posix.getsize_at t1 (cwd w) filepath with
                  | Raise e => (Raise e, set_fs t1 wb)
                  | Ok size =>
                      (Ok true,
                       add_out (set_fs t1 wb)
                         [MsgFetched filename size; MsgSaved directory])
                  end
              end
          end
      end.
Proof.
  intros Hct.
  destruct (report_headers_run r security_headers (add_out w [MsgSecurityHeaders]))
    as (out & Hloop).
  rewrite add_out_app in Hloop.
  exists ([MsgSecurityHeaders] ++ out)%list.
  unfold save_image. rewrite Hct. cbn [negb]. cbv zeta.
  unfold bind at 1.
  change (print MsgSecurityHeaders w) with (Ok tt, add_out w [MsgSecurityHeaders]).
  cbn iota beta. unfold bind at 1. rewrite Hloop.
  set (wb := add_out w ([MsgSecurityHeaders] ++ out)%list).
  cbn iota beta. unfold bind at 1, lift.
  destruct (extract_filename url (Some (content_type_of r))) as [filename|e];
    [|reflexivity].
  cbn iota beta. unfold bind at 1. rewrite is_duplicate_image_spec.
  change (fs wb) with (fs w). change (cwd wb) with (cwd w).
  destruct (find_duplicate (fs w) (cwd w) directory (body r))
    as [[[|] existing]|e]; try reflexivity.
  cbn iota beta. unfold bind at 1, write_file.
  change (fs wb) with (fs w). change (cwd wb) with (cwd w).
  destruct (Posix.write_at (fs w) (cwd w) (PosixPath.join directory filename) (body r))
    as [t1|e]; [|reflexivity].
  cbn iota beta. unfold bind at 1, os_path_getsize.
  change (fs (set_fs t1 wb)) with t1. change (cwd (set_fs t1 wb)) with (cwd w).
  destruct (Posix.getsize_at t1 (cwd w) (PosixPath.join directory filename))
    as [size|e]; [|reflexivity].
  unfold bind, print, ret, add_out. cbn [fs cwd server requests_sent stdout].
  now rewrite <- app_assoc.
Qed.

(** A run that raised is a run that returned [False]. *)
Lemma handlers_false (e : exn) (w w1 : World) :
  match handlers e with
  | Some h => h w
  | None => (Raise e, w)
  end <> (Ok true, w1).
Proof. destruct e; discriminate. Qed.

(** Where [download_image] returns: the scheme was valid, the server
    answered, and the status was no HTTP error, or the result is
    [False]. *)
Lemma download_image_true url directory w w1 :
  download_image url directory w = (Ok true, w1) ->
  exists r,
    valid_scheme url = true
    /\ server w url = NetOk r
    /\ status_passes r = true
    /\ PyStr.startswith "image/" (content_type_of r) = true.
Proof.
  intros Hrun.
  destruct (valid_scheme url) eqn:Hs.
  2: { unfold download_image in Hrun. rewrite Hs in Hrun. discriminate Hrun. }
  destruct (server w url) as [detail|r] eqn:Hsrv.
  { unfold download_image in Hrun. rewrite Hs in Hrun.
    cbv [negb bind print try_except requests_get] in Hrun.
    cbn [fs cwd server requests_sent stdout] in Hrun.
    rewrite Hsrv in Hrun. discriminate Hrun. }
  destruct (status_passes r) eqn:Hst.
  2: { rewrite (download_image_http_error _ _ _ _ Hs Hsrv Hst) in Hrun.
       discriminate Hrun. }
  destruct (PyStr.startswith "image/" (content_type_of r)) eqn:Hct.
  2: { rewrite (download_image_response _ _ _ _ Hs Hsrv Hst) in Hrun.
       unfold try_except, save_image in Hrun. rewrite Hct in Hrun.
       discriminate Hrun. }
  exists r. auto.
Qed.

(** C1, as the program has it.  A first call of [download_image]
    returned [True] and ended with the two lines that report a saved
    file, under a name that is an entry of the directory, and the file
    can be read back.  Then a second call for the same URL, the server
    answering as before, returns [True], ends with the line that reports
    a duplicate under that name, and leaves the files as they were: the
    listing of the directory is the same. *)
Theorem second_fetch_reports_duplicate url directory w w1 filename data :
  wf_tree (fs w) = true ->
  download_image url directory w = (Ok true, w1) ->
  last_saved (stdout w1) = Some filename ->
  PosixPath.entry_name filename = true ->
  read_file (PosixPath.join directory filename) w1 = (Ok data, w1) ->
  exists w2 out,
    download_image url directory w1 = (Ok true, w2)
    /\ stdout w2 = (stdout w1 ++ out ++ [MsgDuplicate (Some filename)])%list
    /\ fs w2 = fs w1
    /\ fst (os_listdir directory w2) = fst (os_listdir directory w1).
Proof.
  intros Hwf Hrun Hlast Hn Hread.
  destruct (download_image_true _ _ _ _ Hrun) as (r & Hs & Hsrv & Hst & Hct).
  rewrite (download_image_response _ _ _ _ Hs Hsrv Hst) in Hrun.
  unfold try_except in Hrun.
  destruct (save_image_run url directory r
              (mkWorld (fs w) (cwd w) (server w) (requests_sent w ++ [url])%list
                       (stdout w ++ [MsgConnecting url])%list) Hct)
    as (out & Hsave).
  rewrite Hsave in Hrun. clear Hsave. cbv zeta in Hrun.
  cbn [fs cwd] in Hrun.
  destruct (extract_filename url (Some (content_type_of r))) as [saved|e]
    eqn:Hname; [|now apply handlers_false in Hrun].
  destruct (find_duplicate (fs w) (cwd w) directory (body r))
    as [[[|] existing]|e] eqn:Hdup; [| |now apply handlers_false in Hrun].
  { injection Hrun as <-. cbn [stdout add_out] in Hlast.
    rewrite last_saved_duplicate in Hlast. discriminate Hlast. }
  destruct (Posix.write_at (fs w) (cwd w) (PosixPath.join directory saved) (body r))
    as [t1|e] eqn:Hwrite; [|now apply handlers_false in Hrun].
  destruct (Posix.getsize_at t1 (cwd w) (PosixPath.join directory saved))
    as [size|e]; [|now apply handlers_false in Hrun].
  injection Hrun as <-. cbn [stdout add_out set_fs] in Hlast.
  rewrite last_saved_fetched in Hlast. injection Hlast as ->.
  injection Hread as Hread. cbn [fs cwd add_out set_fs] in Hread.
  pose proof (scan_after_write _ _ _ _ _ _ _ _ Hwf Hn Hdup Hwrite Hread) as Hscan.
  match goal with
  | |- exists w2 out', download_image _ _ ?x = _ /\ _ => set (w1 := x)
  end.
  assert (Hsrv1 : server w1 url = NetOk r) by exact Hsrv.
  rewrite (download_image_response _ _ _ _ Hs Hsrv1 Hst).
  unfold try_except.
  destruct (save_image_run url directory r
              (mkWorld (fs w1) (cwd w1) (server w1) (requests_sent w1 ++ [url])%list
                       (stdout w1 ++ [MsgConnecting url])%list) Hct)
    as (out' & Hsave).
  rewrite Hsave. clear Hsave. cbv zeta. cbn [fs cwd].
  rewrite Hname.
  change (fs w1) with t1. change (cwd w1) with (cwd w). rewrite Hscan.
  eexists. exists ([MsgConnecting url] ++ out')%list.
  split; [reflexivity|].
  cbn [stdout fs add_out]. rewrite <- !app_assoc.
  split; [reflexivity|]. split; reflexivity.
Qed.

End WholeRun.

Lemma second_fetch_reports_duplicate_witness :
  let url := "http://example.com/pics/cat.png" in
  let w := Scenario.start (Scenario.always (Scenario.png 200)) in
  let w1 := snd (download_image url "Fetched_Images" w) in
  wf_tree (fs w) = true
  /\ download_image url "Fetched_Images" w = (Ok true, w1)
  /\ last_saved (stdout w1) = Some "cat.png"
  /\ PosixPath.entry_name "cat.png" = true
  /\ read_file (PosixPath.join "Fetched_Images" "cat.png") w1
     = (Ok Scenario.png_bytes, w1)
  /\ exists w2 out,
       download_image url "Fetched_Images" w1 = (Ok true, w2)
       /\ stdout w2 = (stdout w1 ++ out ++ [MsgDuplicate (Some "cat.png")])%list
       /\ fs w2 = fs w1
       /\ fst (os_listdir "Fetched_Images" w2)
          = fst (os_listdir "Fetched_Images" w1).
Proof.
  cbv zeta.
  assert (H1 : wf_tree (fs (Scenario.start (Scenario.always (Scenario.png 200))))
               = true) by reflexivity.
  assert (H2 : download_image "http://example.com/pics/cat.png" "Fetched_Images"
                 (Scenario.start (Scenario.always (Scenario.png 200)))
               = (Ok true,
                  snd (download_image "http://example.com/pics/cat.png"
                         "Fetched_Images"
                         (Scenario.start (Scenario.always (Scenario.png 200))))))
    by (vm_compute; reflexivity).
  assert (H3 : last_saved
                 (stdout (snd (download_image "http://example.com/pics/cat.png"
                                 "Fetched_Images"
                                 (Scenario.start (Scenario.always (Scenario.png 200))))))
               = Some "cat.png") by (vm_compute; reflexivity).
  assert (H4 : PosixPath.entry_name "cat.png" = true) by reflexivity.
  assert (H5 : read_file (PosixPath.join "Fetched_Images" "cat.png")
                 (snd (download_image "http://example.com/pics/cat.png"
                         "Fetched_Images"
                         (Scenario.start (Scenario.always (Scenario.png 200)))))
               = (Ok Scenario.png_bytes,
                  snd (download_image "http://example.com/pics/cat.png"
                         "Fetched_Images"
                         (Scenario.start (Scenario.always (Scenario.png 200))))))
    by (vm_compute; reflexivity).
  repeat (split; [assumption|]).
  exact (second_fetch_reports_duplicate _ _ _ _ _ _ H1 H2 H3 H4 H5).
Defined.

(** C1, as the specification words it, fails in two ways.  First, a
    name that leaves the directory: the file of the first call is not in
    the listing, and the second call saves it again.  Second, a file of
    that name that may be written but not read: the first call replaces
    its content, the second cannot read it and saves again.  In both the
    second call reports no duplicate. *)
Lemma second_fetch_saves_again :
  (let url := "http://example.com/..%252Fcat.png" in
   let w := Scenario.start (Scenario.always (Scenario.png 200)) in
   let run1 := download_image url "Fetched_Images" w in
   let run2 := download_image url "Fetched_Images" (snd run1) in
   fst run1 = Ok true
   /\ last_saved (stdout (snd run1)) = Some "../cat.png"
   /\ fs (snd run1)
      = (Scenario.files
         ++ [(["srv"; "cat.png"], File (mkFile Scenario.png_bytes true true))])%list
   /\ fst run2 = Ok true
   /\ stdout (snd run2)
      = (stdout (snd run1)
         ++ [MsgConnecting url; MsgSecurityHeaders;
             MsgFetched "../cat.png" 4; MsgSaved "Fetched_Images"])%list)
  /\
  (let url := "http://example.com/pics/cat.png" in
   let w := mkWorld Scenario.write_only ["srv"]
                    (Scenario.always (Scenario.png 200)) [] [] in
   let run1 := download_image url "Fetched_Images" w in
   let run2 := download_image url "Fetched_Images" (snd run1) in
   fst run1 = Ok true
   /\ last_saved (stdout (snd run1)) = Some "cat.png"
   /\ fs (snd run1)
      = (Scenario.files
         ++ [(["srv"; "Fetched_Images"; "cat.png"],
              File (mkFile Scenario.png_bytes false true))])%list
   /\ fst run2 = Ok true
   /\ stdout (snd run2)
      = (stdout (snd run1)
         ++ [MsgConnecting url; MsgSecurityHeaders;
             MsgFetched "cat.png" 4; MsgSaved "Fetched_Images"])%list).
Proof.
  cbv zeta. repeat split; vm_compute; reflexivity.
Qed.

(** C6, on the program: the second decoding of a name that still holds a
    percent sign can bring back a slash.  The name is then no entry of
    the directory, and [download_image] writes the file outside of it:
    here in [/srv], the directory above [Fetched_Images], which stays
    empty. *)
Theorem double_decoding_leaves_directory :
  let url := "http://example.com/..%252Fcat.png" in
  let run := download_image url "Fetched_Images"
               (Scenario.start (Scenario.always (Scenario.png 200))) in
  extract_filename url (Some "image/png") = Ok "../cat.png"
  /\ PosixPath.entry_name "../cat.png" = false
  /\ extract_filename "http://example.com/%252Fetc%252Fpasswd.txt" (Some "image/png")
     = Ok "/etc/passwd.txt"
  /\ PosixPath.join "Fetched_Images" "/etc/passwd.txt" = "/etc/passwd.txt"
  /\ fst run = Ok true
  /\ fs (snd run)
     = (Scenario.files
        ++ [(["srv"; "cat.png"], File (mkFile Scenario.png_bytes true true))])%list
  /\ fst (os_listdir "Fetched_Images" (snd run)) = Ok [].
Proof.
  cbv zeta. repeat split; vm_compute; reflexivity.
Qed.

(* ===================================================================== *)
(** * Further properties of the program *)
(* ===================================================================== *)

(** ** get_extension_from_content_type *)

Lemma lower_char_idempotent (c : ascii) :
  PyStr.lower_char (PyStr.lower_char c) = PyStr.lower_char c.
Proof.
  destruct c as [b0 b1 b2 b3 b4 b5 b6 b7].
  destruct b0, b1, b2, b3, b4, b5, b6, b7; reflexivity.
Qed.

Lemma lower_idempotent (s : string) : PyStr.lower (PyStr.lower s) = PyStr.lower s.
Proof.
  induction s as [|c s IH]; simpl; [reflexivity|].
  now rewrite lower_char_idempotent, IH.
Qed.

(** X1: the table is consulted without regard to case: a content type
    and its lower-case form have the same extension. *)
Theorem extension_ignores_case (content_type : string) :
  get_extension_from_content_type (Some (PyStr.lower content_type))
  = get_extension_from_content_type (Some content_type).
Proof.
  destruct content_type as [|c s]; [reflexivity|].
  unfold get_extension_from_content_type.
  change (PyStr.lower (String c s))
    with (String (PyStr.lower_char c) (PyStr.lower s)).
  change (String (PyStr.lower_char c) (PyStr.lower s))
    with (PyStr.lower (String c s)).
  rewrite <- (lower_idempotent (String c s)) at 2.
  reflexivity.
Qed.

Lemma dict_get_pair (k : string) (d : list (string * string)) (v : string) :
  dict_get k d = Some v -> In (k, v) d.
Proof.
  induction d as [|[k' v'] d IH]; simpl; [discriminate|].
  destruct (String.eqb k' k) eqn:Hk.
  - apply String.eqb_eq in Hk. intros [= <-]. left. now subst.
  - right. auto.
Qed.

(** X2: an extension is given to image types only, whatever their case,
    and it is one of the seven of the table, each with its leading dot;
    [None] and the empty content type have no extension. *)
Theorem extension_only_for_images (content_type : option string) (e : string) :
  get_extension_from_content_type content_type = Some e ->
  exists ct,
    content_type = Some ct
    /\ ct <> ""
    /\ PyStr.startswith "image/" (PyStr.lower ct) = true
    /\ In e known_extensions
    /\ PyStr.startswith "." e = true.
Proof.
  unfold get_extension_from_content_type.
  destruct content_type as [[|c s]|]; try discriminate.
  intros H. apply dict_get_pair in H.
  exists (String c s). split; [reflexivity|]. split; [discriminate|].
  generalize dependent (PyStr.lower (String c s)). intros k H.
  simpl in H.
  repeat (destruct H as [[= <- <-]|H]; [repeat split; simpl; tauto|]).
  contradiction.
Qed.

Lemma extension_only_for_images_witness :
  get_extension_from_content_type (Some "IMAGE/Svg+XML") = Some ".svg"
  /\ exists ct,
       Some "IMAGE/Svg+XML" = Some ct
       /\ ct <> ""
       /\ PyStr.startswith "image/" (PyStr.lower ct) = true
       /\ In ".svg" known_extensions
       /\ PyStr.startswith "." ".svg" = true.
Proof.
  split; [reflexivity|].
  apply (extension_only_for_images (Some "IMAGE/Svg+XML") ".svg"). reflexivity.
Defined.

(** ** extract_filename *)

Lemma split_parts_no_sep (sep : ascii) (s : string) :
  Forall (fun part => PyStr.contains sep part = false) (PyStr.split sep s).
Proof.
  induction s as [|c s IH]; simpl.
  - constructor; [reflexivity | constructor].
  - destruct (Ascii.eqb c sep) eqn:Hc.
    + constructor; [reflexivity | exact IH].
    + destruct (PyStr.split sep s) as [|w ws]; [repeat constructor; simpl; now rewrite Hc|].
      inversion IH as [|? ? Hw Hws]; subst.
      constructor; [simpl; now rewrite Hc, Hw | exact Hws].
Qed.

(** [os.path.basename] never returns a slash. *)
Lemma basename_no_slash (p : string) :
  PyStr.contains "/" (PosixPath.basename p) = false.
Proof.
  unfold PosixPath.basename.
  pose proof (split_parts_no_sep "/" p) as Hall.
  pose proof (split_nonempty "/" p) as Hne.
  rewrite Forall_forall in Hall. apply Hall.
  destruct (PyStr.split "/" p) as [|x xs]; [contradiction|].
  apply (@exists_last _ (x :: xs)) in Hne as (l' & a & Hl).
  rewrite Hl, last_last. apply in_or_app. right. now left.
Qed.

Lemma all_hex_contains (c : ascii) (s : string) :
  PyStr.is_hex c = false -> PyStr.all_hex s = true -> PyStr.contains c s = false.
Proof.
  intros Hc. induction s as [|x s IH]; simpl; [reflexivity|].
  intros H. apply andb_true_iff in H as [Hx Hs].
  rewrite (IH Hs), orb_false_r.
  destruct (Ascii.eqb x c) eqn:Hxc; [|reflexivity].
  apply Ascii.eqb_eq in Hxc. congruence.
Qed.

Section ExtractFilenameMore.
Context {L : UrlLib}.

(** X3: the name that [extract_filename] makes up is always the name of
    one entry: it is not empty, holds no slash and no NUL, and is
    neither [.] nor [..]. *)
Theorem fallback_name_is_entry_name url content_type parsed_path :
  urlparse_path url = Ok parsed_path ->
  too_generic (PosixPath.basename (unquote parsed_path)) = true ->
  exists name,
    extract_filename url content_type = Ok name
    /\ PosixPath.entry_name name = true.
Proof.
  intros Hp Hg. rewrite (extract_filename_generic _ content_type _ Hp Hg).
  eexists. split; [reflexivity|].
  assert (Hh : PyStr.all_hex (PyStr.take 8 (MD5.hexdigest (PyStr.encode url))) = true)
    by apply take_all_hex, hexdigest_all_hex.
  assert (He : In (match get_extension_from_content_type content_type with
                   | Some e => e
                   | None => ".jpg"
                   end) known_extensions).
  { destruct (get_extension_from_content_type content_type) as [e|] eqn:He.
    - exact (extension_is_known _ _ He).
    - simpl; tauto. }
  revert Hh He.
  generalize (PyStr.take 8 (MD5.hexdigest (PyStr.encode url))).
  generalize (match get_extension_from_content_type content_type with
              | Some e => e
              | None => ".jpg"
              end).
  intros e h Hh He.
  assert (Hslash : PyStr.contains "/" e = false /\ PyStr.contains zero e = false).
  { simpl in He.
    repeat (destruct He as [<-|He]; [split; reflexivity|]). contradiction. }
  unfold PosixPath.entry_name.
  change ("ubuntu_image_" ++ h ++ e) with
    (String "u" ("buntu_image_" ++ h ++ e)).
  cbn [String.eqb Ascii.eqb Bool.eqb negb andb].
  rewrite !andb_true_r.
  cbn [PyStr.contains]. rewrite !contains_app.
  rewrite (all_hex_contains "/" h eq_refl Hh), (all_hex_contains zero h eq_refl Hh).
  destruct Hslash as [-> ->]. reflexivity.
Qed.

(** X4: a last path segment that is kept, and that holds no percent sign
    after the first decoding, is returned as it is, whatever the content
    type: it holds no slash, has a dot and at least 3 characters. *)
Theorem url_name_is_last_segment url content_type parsed_path :
  urlparse_path url = Ok parsed_path ->
  too_generic (PosixPath.basename (unquote parsed_path)) = false ->
  PyStr.contains "%" (PosixPath.basename (unquote parsed_path)) = false ->
  extract_filename url content_type
    = Ok (PosixPath.basename (unquote parsed_path))
  /\ PyStr.contains "/" (PosixPath.basename (unquote parsed_path)) = false
  /\ PyStr.contains "." (PosixPath.basename (unquote parsed_path)) = true
  /\ 3 <= String.length (PosixPath.basename (unquote parsed_path)).
Proof.
  intros Hp Hg Hpc. unfold extract_filename. rewrite Hp, Hg, Hpc.
  split; [reflexivity|]. split; [apply basename_no_slash|].
  unfold too_generic in Hg.
  apply orb_false_iff in Hg as [Hg Hlen].
  apply orb_false_iff in Hg as [_ Hdot].
  apply negb_false_iff in Hdot. split; [exact Hdot|].
  apply Nat.ltb_ge in Hlen. exact Hlen.
Qed.

(** X5: when decoding never turns a string that is not empty into the
    empty string, as is the case of [urllib.parse.unquote],
    [extract_filename] never returns the empty name. *)
Theorem extract_filename_not_empty url content_type name :
  (forall s, s <> "" -> unquote s <> "") ->
  extract_filename url content_type = Ok name ->
  name <> "".
Proof.
  intros Hu. unfold extract_filename.
  destruct (urlparse_path url) as [p|e]; [|discriminate].
  destruct (too_generic (PosixPath.basename (unquote p))) eqn:Hg.
  - intros [= <-]. discriminate.
  - unfold too_generic in Hg.
    apply orb_false_iff in Hg as [Hg _].
    apply orb_false_iff in Hg as [Hne _].
    apply String.eqb_neq in Hne.
    destruct (PyStr.contains "%" (PosixPath.basename (unquote p)));
      intros [= <-]; auto.
Qed.

End ExtractFilenameMore.

Lemma percent_decode_not_empty (s : string) :
  s <> "" -> Urllib.percent_decode s <> "".
Proof.
  destruct s as [|c s]; [contradiction|]. intros _. simpl.
  destruct (Ascii.eqb c "%"); [|discriminate].
  destruct s as [|h [|l s]]; try discriminate.
  destruct (Urllib.hex_val h), (Urllib.hex_val l); discriminate.
Qed.

Lemma fallback_name_is_entry_name_witness :
  urlparse_path "http://example.com/a/" = Ok "/a/"
  /\ too_generic (PosixPath.basename (unquote "/a/")) = true
  /\ exists name,
       extract_filename "http://example.com/a/" None = Ok name
       /\ PosixPath.entry_name name = true.
Proof.
  split; [reflexivity|]. split; [reflexivity|].
  apply (fallback_name_is_entry_name "http://example.com/a/" None "/a/");
    reflexivity.
Defined.

Lemma url_name_is_last_segment_witness :
  urlparse_path "http://example.com/pics/my%20cat.png?size=2" = Ok "/pics/my%20cat.png"
  /\ too_generic (PosixPath.basename (unquote "/pics/my%20cat.png")) = false
  /\ PyStr.contains "%" (PosixPath.basename (unquote "/pics/my%20cat.png")) = false
  /\ extract_filename "http://example.com/pics/my%20cat.png?size=2" (Some "image/gif")
     = Ok (PosixPath.basename (unquote "/pics/my%20cat.png"))
  /\ PosixPath.basename (unquote "/pics/my%20cat.png") = "my cat.png".
Proof.
  split; [reflexivity|]. split; [reflexivity|]. split; [reflexivity|].
  split; [|reflexivity].
  apply (url_name_is_last_segment "http://example.com/pics/my%20cat.png?size=2"
           (Some "image/gif") "/pics/my%20cat.png"); reflexivity.
Defined.

Lemma extract_filename_not_empty_witness :
  (forall s, s <> "" -> unquote s <> "")
  /\ extract_filename "http://example.com/%2541.png" None = Ok "A.png"
  /\ "A.png" <> "".
Proof.
  split; [exact percent_decode_not_empty|]. split; [reflexivity|].
  apply (extract_filename_not_empty "http://example.com/%2541.png" None "A.png");
    [exact percent_decode_not_empty | reflexivity].
Defined.

(** ** is_duplicate_image, further *)

Lemma find_first {A} (f : A -> bool) (l : list A) (x : A) :
  find f l = Some x ->
  exists before after,
    l = (before ++ x :: after)%list /\ f x = true
    /\ forall y, In y before -> f y = false.
Proof.
  induction l as [|a l IH]; simpl; [discriminate|].
  destruct (f a) eqn:Ha.
  - intros [= <-]. exists [], l. repeat split; auto. intros y [].
  - intros H. destruct (IH H) as (before & after & -> & Hx & Hb).
    exists (a :: before), after. repeat split; auto.
    intros y [<-|Hy]; auto.
Qed.

Lemma is_copy_matches (directory : string) (candidate : list byte) (w : World)
      (name : string) :
  is_copy directory candidate w name
  <-> matches (fs w) (cwd w) directory (MD5.hexdigest candidate) name = true.
Proof. unfold is_copy. symmetry. apply matches_true_iff. Qed.

(** X6: the name that [is_duplicate_image] reports is an entry of the
    listing that is a regular file, can be read and has the MD5 of the
    candidate, and no entry listed before it is such a file. *)
Theorem duplicate_is_first_copy (directory : string) (candidate : list byte)
        (w : World) (found : string) :
  fst (is_duplicate_image directory candidate w) = Ok (true, Some found) ->
  exists before after,
    os_listdir directory w = (Ok (before ++ found :: after)%list, w)
    /\ is_copy directory candidate w found
    /\ forall name, In name before -> ~ is_copy directory candidate w name.
Proof.
  rewrite is_duplicate_image_spec. unfold find_duplicate, os_listdir. simpl.
  destruct (Posix.listdir_at (fs w) (cwd w) directory) as [entries|e];
    [|discriminate].
  unfold first_match.
  destruct (find _ entries) as [x|] eqn:Hfind; [|discriminate].
  intros [= ->].
  destruct (find_first _ _ _ Hfind) as (before & after & -> & Hx & Hb).
  exists before, after. split; [reflexivity|].
  split; [now apply is_copy_matches|].
  intros name Hin Hc. apply is_copy_matches in Hc.
  rewrite (Hb _ Hin) in Hc. discriminate.
Qed.

(** X7: for a directory that can be listed, [is_duplicate_image] returns
    [(False, None)] exactly when no entry of the listing is a regular
    file that can be read and has the MD5 of the candidate; so it does
    for an empty directory. *)
Theorem no_duplicate_iff (directory : string) (candidate : list byte)
        (w : World) (entries : list string) :
  os_listdir directory w = (Ok entries, w) ->
  (fst (is_duplicate_image directory candidate w) = Ok (false, None)
   <-> forall name, In name entries -> ~ is_copy directory candidate w name).
Proof.
  intros Hls. injection Hls as Hls.
  rewrite is_duplicate_image_spec. unfold find_duplicate. rewrite Hls.
  unfold first_match. cbn [fst].
  destruct (find _ entries) as [x|] eqn:Hfind.
  - split; [discriminate|]. intros Hno. exfalso.
    apply find_some in Hfind as [Hin Hm].
    apply (Hno x Hin). now apply is_copy_matches.
  - split; [|reflexivity]. intros _ name Hin Hc.
    apply is_copy_matches in Hc.
    rewrite (find_none _ _ Hfind name Hin) in Hc. discriminate.
Qed.

(** A directory that cannot be listed, because it does not exist or
    is a file, makes [is_duplicate_image] raise the error of the
    listing: only the errors of reading one file are caught. *)
Lemma listing_error_is_raised (directory : string) (candidate : list byte)
        (w : World) (e : exn) :
  os_listdir directory w = (Raise e, w) ->
  is_duplicate_image directory candidate w = (Raise e, w).
Proof.
  intros Hls. injection Hls as Hls.
  rewrite is_duplicate_image_spec. unfold find_duplicate. now rewrite Hls.
Qed.

Lemma duplicate_is_first_copy_witness :
  let w := mkWorld Scenario.unreadable_first ["srv"]
                   (Scenario.always (Scenario.png 200)) [] [] in
  fst (is_duplicate_image "Fetched_Images" Scenario.png_bytes w)
    = Ok (true, Some "b.png")
  /\ exists before after,
       os_listdir "Fetched_Images" w = (Ok (before ++ "b.png" :: after)%list, w)
       /\ is_copy "Fetched_Images" Scenario.png_bytes w "b.png"
       /\ forall name, In name before
                       -> ~ is_copy "Fetched_Images" Scenario.png_bytes w name.
Proof.
  cbv zeta.
  assert (H : fst (is_duplicate_image "Fetched_Images" Scenario.png_bytes
                     (mkWorld Scenario.unreadable_first ["srv"]
                              (Scenario.always (Scenario.png 200)) [] []))
              = Ok (true, Some "b.png")) by (vm_compute; reflexivity).
  split; [exact H|].
  exact (duplicate_is_first_copy _ _ _ _ H).
Defined.

Lemma no_duplicate_iff_witness :
  let w := Scenario.start (Scenario.always (Scenario.png 200)) in
  os_listdir "Fetched_Images" w = (Ok [], w)
  /\ (fst (is_duplicate_image "Fetched_Images" Scenario.png_bytes w)
        = Ok (false, None)
      <-> forall name, In name []
                       -> ~ is_copy "Fetched_Images" Scenario.png_bytes w name).
Proof.
  cbv zeta. split; [reflexivity|].
  apply (no_duplicate_iff "Fetched_Images" Scenario.png_bytes
           (Scenario.start (Scenario.always (Scenario.png 200))) []).
  reflexivity.
Defined.

Lemma listing_error_is_raised_witness :
  let w := Scenario.start (Scenario.always (Scenario.png 200)) in
  os_listdir "Missing" w = (Raise (OSError ENOENT), w)
  /\ is_duplicate_image "Missing" Scenario.png_bytes w
     = (Raise (OSError ENOENT), w).
Proof.
  cbv zeta. split; [reflexivity|].
  apply (listing_error_is_raised "Missing" Scenario.png_bytes
           (Scenario.start (Scenario.always (Scenario.png 200)))
           (OSError ENOENT)).
  reflexivity.
Defined.

(** ** download_image, further *)

Lemma handlers_run (e : exn) (w : World) :
  match handlers e with
  | Some h => h w
  | None => (Raise e, w)
  end = (Ok false, add_out w [error_line e]).
Proof. destruct e; reflexivity. Qed.

(** A file that was just written has the size of what was written. *)
Lemma getsize_after_write (t t1 : tree) (wd : path) (p : string)
      (data : list byte) :
  Posix.write_at t wd p data = Ok t1 ->
  Posix.getsize_at t1 wd p = Ok (length data).
Proof.
  intros Hwrite.
  destruct (Posix.resolve_at t wd p) as [rp|e] eqn:Hres;
    [|unfold Posix.write_at in Hwrite; rewrite Hres in Hwrite; discriminate].
  destruct (write_at_lookup _ _ _ _ _ _ Hres Hwrite)
    as (Hne & Hnodir & f & Hf & Hlook).
  unfold Posix.getsize_at.
  rewrite (proj2 (written_resolve t t1 rp f Hne Hnodir Hlook wd p rp) Hres).
  destruct rp as [|c rp]; [contradiction|].
  rewrite Hlook, path_eqb_refl. now rewrite Hf.
Qed.

Section FetchRun.
Context {L : UrlLib}.

Lemma download_image_invalid url directory w :
  valid_scheme url = false ->
  download_image url directory w = (Ok false, add_out w [MsgInvalidScheme]).
Proof. intros Hs. unfold download_image. now rewrite Hs. Qed.

Lemma download_image_net_fail url directory w detail :
  valid_scheme url = true ->
  server w url = NetFail detail ->
  download_image url directory w
  = (Ok false,
     add_out (sent w url)
       [MsgConnecting url; MsgConnectionError (RequestException detail)]).
Proof.
  intros Hs Hsrv. unfold download_image. rewrite Hs.
  cbv [negb bind print try_except requests_get].
  cbn [fs cwd server requests_sent stdout]. rewrite Hsrv.
  cbv [handlers bind print ret add_out sent].
  cbn [fs cwd server requests_sent stdout]. now rewrite <- app_assoc.
Qed.

(** The whole run of [download_image] on a response that passes the
    checks of status and content type. *)
Lemma fetch_run url directory w r :
  valid_scheme url = true ->
  server w url = NetOk r ->
  status_passes r = true ->
  PyStr.startswith "image/" (content_type_of r) = true ->
  exists out,
    download_image url directory w
    = let wb := add_out (sent w url) (MsgConnecting url :: out) in
      match extract_filename url (Some (content_type_of r)) with
      | Raise e => (Ok false, add_out wb [error_line e])
      | Ok filename =>
          match find_duplicate (fs w) (cwd w) directory (body r) with
          | Raise e => (Ok false, add_out wb [error_line e])
          | Ok (true, existing) =>
              (Ok true, add_out wb [MsgDuplicate existing])
          | Ok (false, _) =>
              match Posix.write_at (fs w) (cwd w)
                      (PosixPath.join directory filename) (body r) with
              | Raise e => (Ok false, add_out wb [error_line e])
              | Ok t1 =>
                  (Ok true,
                   add_out (set_fs t1 wb)
                     [MsgFetched filename (length (body r));
                      MsgSaved directory])
              end
          end
      end.
Proof.
  intros Hs Hsrv Hst Hct.
  rewrite (download_image_response _ _ _ _ Hs Hsrv Hst).
  destruct (save_image_run url directory r
              (mkWorld (fs w) (cwd w) (server w) (requests_sent w ++ [url])%list
                       (stdout w ++ [MsgConnecting url])%list) Hct)
    as (out & Hsave).
  exists out. unfold try_except. rewrite Hsave. clear Hsave.
  cbv zeta. cbn [fs cwd].
  assert (Hwb : add_out
                  (mkWorld (fs w) (cwd w) (server w) (requests_sent w ++ [url])%list
                           (stdout w ++ [MsgConnecting url])%list) out
                = add_out (sent w url) (MsgConnecting url :: out)).
  { unfold add_out, sent. cbn [fs cwd server requests_sent stdout].
    now rewrite <- app_assoc. }
  rewrite Hwb.
  destruct (extract_filename url (Some (content_type_of r))) as [filename|e];
    [|apply handlers_run].
  destruct (find_duplicate (fs w) (cwd w) directory (body r))
    as [[[|] existing]|e]; [reflexivity | | apply handlers_run].
  destruct (Posix.write_at (fs w) (cwd w) (PosixPath.join directory filename) (body r))
    as [t1|e] eqn:Hwrite; [|apply handlers_run].
  now rewrite (getsize_after_write _ _ _ _ _ Hwrite).
Qed.

(** The four ways in which a call ends before the name is computed. *)
Lemma early_exit url directory w :
  (exists out, download_image url directory w = (Ok false, add_out w out)
               /\ valid_scheme url = false)
  \/ (exists out, download_image url directory w
                  = (Ok false, add_out (sent w url) out)
                  /\ valid_scheme url = true)
  \/ (exists r, valid_scheme url = true
                /\ server w url = NetOk r
                /\ status_passes r = true
                /\ PyStr.startswith "image/" (content_type_of r) = true).
Proof.
  destruct (valid_scheme url) eqn:Hs.
  2: { left. eexists. split; [now apply download_image_invalid | reflexivity]. }
  right. destruct (server w url) as [detail|r] eqn:Hsrv.
  { left. eexists.
    split; [exact (download_image_net_fail _ _ _ detail Hs Hsrv) | reflexivity]. }
  destruct (status_passes r) eqn:Hst.
  2: { left. exists [MsgConnecting url;
                     MsgConnectionError (HTTPError (status_code r))].
       split; [|reflexivity].
       now rewrite (download_image_http_error _ _ _ _ Hs Hsrv Hst). }
  destruct (PyStr.startswith "image/" (content_type_of r)) eqn:Hct.
  2: { left. exists [MsgConnecting url; MsgNotImage (content_type_of r)].
       split; [|reflexivity].
       rewrite (download_image_response _ _ _ _ Hs Hsrv Hst).
       unfold try_except, save_image. rewrite Hct.
       cbv [negb bind print ret add_out sent].
       cbn [fs cwd server requests_sent stdout]. now rewrite <- app_assoc. }
  right. exists r. auto.
Qed.

End FetchRun.



Section FetchProperties.
Context {L : UrlLib}.

(** X8: [download_image] never raises: whatever the URL, the
    directory, the files and the server, it returns [True] or [False]. *)
Theorem download_image_never_raises url directory w :
  exists b w', download_image url directory w = (Ok b, w').
Proof.
  destruct (early_exit url directory w)
    as [(out & H & _)|[(out & H & _)|(r & Hs & Hsrv & Hst & Hct)]];
    try (rewrite H; eauto).
  destruct (fetch_run url directory w r Hs Hsrv Hst Hct) as (out & H).
  rewrite H. cbv zeta.
  destruct (extract_filename url (Some (content_type_of r))); [|eauto].
  destruct (find_duplicate (fs w) (cwd w) directory (body r))
    as [[[|] existing]|e]; eauto.
  destruct (Posix.write_at _ _ _ _); eauto.
Qed.

(** X9: one call sends one request when the scheme of the URL is valid
    and none otherwise, whatever happens next: nothing is tried twice.
    The working directory is as before, and the lines printed earlier
    stay, the new ones after them. *)
Theorem download_image_sends_one_request url directory w :
  let w' := snd (download_image url directory w) in
  requests_sent w'
    = (requests_sent w ++ (if valid_scheme url then [url] else []))%list
  /\ cwd w' = cwd w
  /\ exists out, stdout w' = (stdout w ++ out)%list.
Proof.
  cbv zeta.
  destruct (early_exit url directory w)
    as [(out & H & Hs)|[(out & H & Hs)|(r & Hs & Hsrv & Hst & Hct)]].
  - rewrite H, Hs. simpl. rewrite app_nil_r. eauto.
  - rewrite H, Hs. simpl. eauto.
  - destruct (fetch_run url directory w r Hs Hsrv Hst Hct) as (out & H).
    rewrite H, Hs. cbv zeta.
    destruct (extract_filename url (Some (content_type_of r)));
      [|simpl; rewrite <- app_assoc; eauto].
    destruct (find_duplicate (fs w) (cwd w) directory (body r))
      as [[[|] existing]|e]; try (simpl; rewrite <- app_assoc; eauto).
    destruct (Posix.write_at _ _ _ _); simpl; rewrite <- app_assoc; eauto.
Qed.

(** X10: a request that fails in transport (no connection, no name, a
    timeout) makes [download_image] return [False] with the line of a
    connection error; no file is touched. *)
Theorem transport_failure_rejected url directory w detail :
  valid_scheme url = true ->
  server w url = NetFail detail ->
  exists w',
    download_image url directory w = (Ok false, w')
    /\ stdout w' = (stdout w ++ [MsgConnecting url;
                                 MsgConnectionError (RequestException detail)])%list
    /\ fs w' = fs w.
Proof.
  intros Hs Hsrv. rewrite (download_image_net_fail _ _ _ _ Hs Hsrv).
  eexists. split; [reflexivity|]. split; reflexivity.
Qed.


(** X12: content that the directory already holds is not stored again,
    whatever the URL and the name it would give: when the scan reports
    [found], [download_image] returns [True], ends with the line that
    names [found], and leaves every file as it was. *)
Theorem known_content_is_not_stored url directory w r filename found :
  valid_scheme url = true ->
  server w url = NetOk r ->
  status_passes r = true ->
  PyStr.startswith "image/" (content_type_of r) = true ->
  extract_filename url (Some (content_type_of r)) = Ok filename ->
  fst (is_duplicate_image directory (body r) w) = Ok (true, Some found) ->
  exists w' out,
    download_image url directory w = (Ok true, w')
    /\ stdout w' = (stdout w ++ out ++ [MsgDuplicate (Some found)])%list
    /\ fs w' = fs w.
Proof.
  intros Hs Hsrv Hst Hct Hname Hdup.
  rewrite is_duplicate_image_spec in Hdup. cbn [fst] in Hdup.
  destruct (fetch_run url directory w r Hs Hsrv Hst Hct) as (out & H).
  rewrite H, Hname, Hdup. cbv zeta.
  eexists. exists (MsgConnecting url :: out).
  split; [reflexivity|]. simpl. rewrite <- app_assoc. auto.
Qed.

(** A call that reports a saved file: the response passed the checks,
    the scan found no duplicate, and the write went through. *)
Lemma saved_run_inv url directory w w1 filename :
  download_image url directory w = (Ok true, w1) ->
  last_saved (stdout w1) = Some filename ->
  exists r out existing t1,
    server w url = NetOk r
    /\ extract_filename url (Some (content_type_of r)) = Ok filename
    /\ find_duplicate (fs w) (cwd w) directory (body r) = Ok (false, existing)
    /\ Posix.write_at (fs w) (cwd w) (PosixPath.join directory filename) (body r)
       = Ok t1
    /\ w1 = add_out (set_fs t1 (add_out (sent w url) (MsgConnecting url :: out)))
              [MsgFetched filename (length (body r)); MsgSaved directory].
Proof.
  intros Hrun Hlast.
  destruct (download_image_true _ _ _ _ Hrun) as (r & Hs & Hsrv & Hst & Hct).
  destruct (fetch_run url directory w r Hs Hsrv Hst Hct) as (out & H).
  rewrite H in Hrun. clear H. cbv zeta in Hrun.
  destruct (extract_filename url (Some (content_type_of r))) as [saved|e]
    eqn:Hname; [|discriminate].
  destruct (find_duplicate (fs w) (cwd w) directory (body r))
    as [[[|] existing]|e] eqn:Hdup; [| |discriminate].
  { injection Hrun as <-. cbn [stdout add_out sent] in Hlast.
    rewrite last_saved_duplicate in Hlast. discriminate. }
  destruct (Posix.write_at (fs w) (cwd w) (PosixPath.join directory saved) (body r))
    as [t1|e] eqn:Hwrite; [|discriminate].
  injection Hrun as <-. cbn [stdout add_out sent set_fs] in Hlast.
  rewrite last_saved_fetched in Hlast. injection Hlast as ->.
  exists r, out, existing, t1. auto.
Qed.

(** X13: what a call that reports a saved file has done.  One path of
    the tree, the one that the directory joined with the name resolves
    to, now holds a file with the body of the response; every other
    path holds what it held.  The size printed is the length of the
    body. *)
Theorem saved_file_holds_body url directory w w1 filename :
  download_image url directory w = (Ok true, w1) ->
  last_saved (stdout w1) = Some filename ->
  exists r rp f out,
    server w url = NetOk r
    /\ extract_filename url (Some (content_type_of r)) = Ok filename
    /\ Posix.resolve_at (fs w) (cwd w) (PosixPath.join directory filename) = Ok rp
    /\ Posix.lookup (fs w1) rp = Some (File f)
    /\ content f = body r
    /\ (forall q, q <> rp -> Posix.lookup (fs w1) q = Posix.lookup (fs w) q)
    /\ stdout w1 = (stdout w ++ out
                    ++ [MsgFetched filename (length (body r));
                        MsgSaved directory])%list.
Proof.
  intros Hrun Hlast.
  destruct (saved_run_inv _ _ _ _ _ Hrun Hlast)
    as (r & out & existing & t1 & Hsrv & Hname & _ & Hwrite & ->).
  destruct (Posix.resolve_at (fs w) (cwd w) (PosixPath.join directory filename))
    as [rp|e] eqn:Hres;
    [|unfold Posix.write_at in Hwrite; rewrite Hres in Hwrite; discriminate].
  destruct (write_at_lookup _ _ _ _ _ _ Hres Hwrite)
    as (Hne & Hnodir & f & Hf & Hlook).
  exists r, rp, f, (MsgConnecting url :: out).
  split; [exact Hsrv|]. split; [exact Hname|]. split; [reflexivity|].
  cbn [fs add_out set_fs stdout sent].
  split; [now rewrite Hlook, path_eqb_refl|]. split; [exact Hf|].
  split.
  - intros q Hq. rewrite Hlook.
    destruct (Posix.path_eqb rp q) eqn:Heq; [|reflexivity].
    apply path_eqb_eq in Heq. congruence.
  - simpl. now rewrite <- app_assoc.
Qed.



End FetchProperties.

Lemma transport_failure_rejected_witness :
  let w := Scenario.start (fun _ => NetFail "timed out") in
  valid_scheme "https://example.com/cat.png" = true
  /\ server w "https://example.com/cat.png" = NetFail "timed out"
  /\ exists w',
       download_image "https://example.com/cat.png" "Fetched_Images" w
       = (Ok false, w')
       /\ stdout w' = [MsgConnecting "https://example.com/cat.png";
                       MsgConnectionError (RequestException "timed out")]
       /\ fs w' = fs w.
Proof.
  cbv zeta. split; [reflexivity|]. split; [reflexivity|].
  apply (transport_failure_rejected "https://example.com/cat.png"
           "Fetched_Images" (Scenario.start (fun _ => NetFail "timed out"))
           "timed out"); reflexivity.
Defined.


Lemma known_content_is_not_stored_witness :
  let w := snd (download_image "http://example.com/pics/cat.png" "Fetched_Images"
                  (Scenario.start (Scenario.always (Scenario.png 200)))) in
  let url := "http://example.com/x/other.png" in
  valid_scheme url = true
  /\ server w url = NetOk (Scenario.png 200)
  /\ status_passes (Scenario.png 200) = true
  /\ PyStr.startswith "image/" (content_type_of (Scenario.png 200)) = true
  /\ extract_filename url (Some (content_type_of (Scenario.png 200)))
     = Ok "other.png"
  /\ fst (is_duplicate_image "Fetched_Images" (body (Scenario.png 200)) w)
     = Ok (true, Some "cat.png")
  /\ exists w' out,
       download_image url "Fetched_Images" w = (Ok true, w')
       /\ stdout w' = (stdout w ++ out ++ [MsgDuplicate (Some "cat.png")])%list
       /\ fs w' = fs w.
Proof.
  cbv zeta.
  assert (H1 : valid_scheme "http://example.com/x/other.png" = true)
    by reflexivity.
  assert (H2 : server
                 (snd (download_image "http://example.com/pics/cat.png"
                         "Fetched_Images"
                         (Scenario.start (Scenario.always (Scenario.png 200)))))
                 "http://example.com/x/other.png" = NetOk (Scenario.png 200))
    by (vm_compute; reflexivity).
  assert (H3 : status_passes (Scenario.png 200) = true) by reflexivity.
  assert (H4 : PyStr.startswith "image/" (content_type_of (Scenario.png 200)) = true)
    by reflexivity.
  assert (H5 : extract_filename "http://example.com/x/other.png"
                 (Some (content_type_of (Scenario.png 200))) = Ok "other.png")
    by reflexivity.
  assert (H6 : fst (is_duplicate_image "Fetched_Images" (body (Scenario.png 200))
                      (snd (download_image "http://example.com/pics/cat.png"
                              "Fetched_Images"
                              (Scenario.start (Scenario.always (Scenario.png 200))))))
               = Ok (true, Some "cat.png")) by (vm_compute; reflexivity).
  repeat (split; [assumption|]).
  exact (known_content_is_not_stored _ _ _ _ _ _ H1 H2 H3 H4 H5 H6).
Defined.

Lemma saved_file_holds_body_witness :
  let w := Scenario.start (Scenario.always (Scenario.png 200)) in
  let url := "http://example.com/pics/cat.png" in
  let w1 := snd (download_image url "Fetched_Images" w) in
  download_image url "Fetched_Images" w = (Ok true, w1)
  /\ last_saved (stdout w1) = Some "cat.png"
  /\ exists r rp f out,
       server w url = NetOk r
       /\ extract_filename url (Some (content_type_of r)) = Ok "cat.png"
       /\ Posix.resolve_at (fs w) (cwd w) (PosixPath.join "Fetched_Images" "cat.png")
          = Ok rp
       /\ Posix.lookup (fs w1) rp = Some (File f)
       /\ content f = body r
       /\ (forall q, q <> rp -> Posix.lookup (fs w1) q = Posix.lookup (fs w) q)
       /\ stdout w1 = (stdout w ++ out
                       ++ [MsgFetched "cat.png" (length (body r));
                           MsgSaved "Fetched_Images"])%list.
Proof.
  cbv zeta.
  assert (H1 : download_image "http://example.com/pics/cat.png" "Fetched_Images"
                 (Scenario.start (Scenario.always (Scenario.png 200)))
               = (Ok true,
                  snd (download_image "http://example.com/pics/cat.png"
                         "Fetched_Images"
                         (Scenario.start (Scenario.always (Scenario.png 200))))))
    by (vm_compute; reflexivity).
  assert (H2 : last_saved
                 (stdout (snd (download_image "http://example.com/pics/cat.png"
                                 "Fetched_Images"
                                 (Scenario.start (Scenario.always (Scenario.png 200))))))
               = Some "cat.png") by (vm_compute; reflexivity).
  split; [exact H1|]. split; [exact H2|].
  exact (saved_file_holds_body _ _ _ _ _ H1 H2).
Defined.



(** ** os.makedirs *)

Lemma split_two_parts (sep : ascii) (s : string) :
  PyStr.contains sep s = true ->
  exists x y rest, PyStr.split sep s = x :: y :: rest.
Proof.
  induction s as [|c s IH]; simpl; [discriminate|].
  destruct (Ascii.eqb c sep) eqn:Hc.
  - intros _. pose proof (split_nonempty sep s) as Hne.
    destruct (PyStr.split sep s) as [|y rest]; [contradiction|]. eauto.
  - simpl. intros Hs. destruct (IH Hs) as (x & y & rest & ->). eauto.
Qed.

(** The two parts of [os.path.split] before the head is stripped. *)
Lemma head_raw_basename (p : string) :
  PosixDir.head_raw p ++ PosixPath.basename p = p.
Proof.
  unfold PosixPath.basename.
  induction p as [|c p IH]; [reflexivity|].
  cbn [PosixDir.head_raw].
  destruct (PyStr.contains "/" (String c p)) eqn:Hs.
  - cbn [append]. f_equal. rewrite <- IH at 3. f_equal.
    cbn [PyStr.split PyStr.contains] in *.
    destruct (Ascii.eqb c "/") eqn:Hc.
    + pose proof (split_nonempty "/" p) as Hne.
      destruct (PyStr.split "/" p); [contradiction | reflexivity].
    + cbn [orb] in Hs. destruct (split_two_parts _ _ Hs) as (x & y & rest & ->).
      reflexivity.
  - now rewrite (split_no_sep _ _ Hs).
Qed.

Lemma rstrip_slash_length (s : string) :
  String.length (PosixDir.rstrip_slash s) <= String.length s.
Proof.
  induction s as [|c s IH]; simpl; [lia|].
  destruct (Ascii.eqb c "/" && String.eqb (PosixDir.rstrip_slash s) "");
    simpl; lia.
Qed.

Lemma append_length (a b : string) :
  String.length (a ++ b) = String.length a + String.length b.
Proof. induction a as [|c a IH]; simpl; [reflexivity | now rewrite IH]. Qed.

Lemma split_lengths (p : string) :
  String.length (fst (PosixDir.split p)) + String.length (snd (PosixDir.split p))
  <= String.length p.
Proof.
  unfold PosixDir.split. cbn [fst snd].
  pose proof (f_equal String.length (head_raw_basename p)) as H.
  rewrite append_length in H.
  pose proof (rstrip_slash_length (PosixDir.head_raw p)).
  destruct (negb _ && negb _); lia.
Qed.

(** The head on which [makedirs] calls itself is shorter than the name. *)
Lemma split_name_shorter (name : string) :
  snd (PosixDir.split_name name) <> "" ->
  String.length (fst (PosixDir.split_name name)) < String.length name.
Proof.
  unfold PosixDir.split_name.
  pose proof (split_lengths name) as H1.
  destruct (PosixDir.split name) as [head tail]. cbn [fst snd] in H1.
  destruct (String.eqb tail "") eqn:Ht.
  - pose proof (split_lengths head) as H2.
    destruct (PosixDir.split head) as [head2 tail2]. cbn [fst snd] in *.
    intros Hne. destruct tail2; [contradiction|]. simpl in H2. lia.
  - cbn [fst snd]. intros _. apply String.eqb_neq in Ht.
    destruct tail; [contradiction|]. simpl in H1. lia.
Qed.

Lemma makedirs_body_ext (rec1 rec2 : string -> tree -> option mk_exn * tree)
      (wd : path) (name : string) (t : tree) :
  (snd (PosixDir.split_name name) <> "" ->
   forall t', rec1 (fst (PosixDir.split_name name)) t'
              = rec2 (fst (PosixDir.split_name name)) t') ->
  PosixDir.makedirs_body rec1 wd name t = PosixDir.makedirs_body rec2 wd name t.
Proof.
  unfold PosixDir.makedirs_body.
  destruct (PosixDir.split_name name) as [head tail]. cbn [fst snd].
  intros Hrec. destruct (String.eqb tail "") eqn:Ht.
  - now rewrite andb_false_r.
  - apply String.eqb_neq in Ht. now rewrite (Hrec Ht).
Qed.

Lemma makedirs_fuel_enough (wd : path) (fuel1 fuel2 : nat) (name : string)
      (t : tree) :
  String.length name <= fuel1 -> String.length name <= fuel2 ->
  PosixDir.makedirs_fuel fuel1 wd name t = PosixDir.makedirs_fuel fuel2 wd name t.
Proof.
  revert fuel2 name t.
  induction fuel1 as [|k IH]; intros fuel2 name t H1 H2.
  - destruct fuel2 as [|k2]; [reflexivity|]. simpl.
    apply makedirs_body_ext. intros Hne.
    pose proof (split_name_shorter name Hne). lia.
  - destruct fuel2 as [|k2]; simpl; apply makedirs_body_ext; intros Hne t';
      pose proof (split_name_shorter name Hne); [lia|].
    apply IH; lia.
Qed.

(** [makedirs] satisfies the equation of the library's function: its
    body, with itself for the recursive call. *)
Lemma makedirs_eq (wd : path) (name : string) (t : tree) :
  PosixDir.makedirs wd name t
  = PosixDir.makedirs_body (PosixDir.makedirs wd) wd name t.
Proof.
  unfold PosixDir.makedirs.
  destruct (String.length name) as [|k] eqn:Hlen; simpl;
    apply makedirs_body_ext; intros Hne t';
    pose proof (split_name_shorter name Hne); [lia|].
  apply makedirs_fuel_enough; lia.
Qed.

Lemma only_adds_refl (t : tree) : only_adds_directories t t.
Proof. exists []. split; [now rewrite app_nil_r | constructor]. Qed.

Lemma only_adds_trans (t1 t2 t3 : tree) :
  only_adds_directories t1 t2 -> only_adds_directories t2 t3 ->
  only_adds_directories t1 t3.
Proof.
  intros (a & -> & Ha) (b & -> & Hb). exists (a ++ b)%list.
  split; [now rewrite app_assoc | now apply Forall_app].
Qed.

Lemma mkdir_exist_ok_adds (wd : path) (name : string) (t : tree) :
  only_adds_directories t (snd (PosixDir.mkdir_exist_ok wd name t)).
Proof.
  unfold PosixDir.mkdir_exist_ok.
  destruct (PosixDir.mkdir_at t wd name) as [t'|e] eqn:Hmk.
  - unfold PosixDir.mkdir_at in Hmk.
    repeat match type of Hmk with
           | (if ?b then _ else _) = _ => destruct b; try discriminate
           | match ?x with _ => _ end = _ => destruct x; try discriminate
           end.
    injection Hmk as <-. eexists. split; [reflexivity|].
    repeat constructor.
  - destruct (is_os_error e && PosixDir.isdir_at t wd name);
      apply only_adds_refl.
Qed.

Lemma makedirs_body_adds (rec : string -> tree -> option mk_exn * tree)
      (wd : path) (name : string) (t : tree) :
  (forall h t', only_adds_directories t' (snd (rec h t'))) ->
  only_adds_directories t (snd (PosixDir.makedirs_body rec wd name t)).
Proof.
  intros Hrec. unfold PosixDir.makedirs_body.
  destruct (PosixDir.split_name name) as [head tail].
  destruct (negb _ && negb _ && negb _); [|apply mkdir_exist_ok_adds].
  pose proof (Hrec head t) as Hh.
  destruct (rec head t) as [[[|e]|] t1]; cbn [snd] in *;
    try exact Hh;
    (destruct (String.eqb tail "."); [exact Hh|];
     eapply only_adds_trans; [exact Hh | apply mkdir_exist_ok_adds]).
Qed.

Lemma makedirs_adds (wd : path) (name : string) (t : tree) :
  only_adds_directories t (snd (PosixDir.makedirs wd name t)).
Proof.
  unfold PosixDir.makedirs. generalize (String.length name). intros fuel.
  revert name t. induction fuel as [|k IH]; intros name t; simpl;
    apply makedirs_body_adds; auto.
  intros h t'. apply only_adds_refl.
Qed.

(** ** create_directory *)

Lemma rstrip_slash_no_slash (s : string) :
  PyStr.contains "/" s = false -> PosixDir.rstrip_slash s = s.
Proof.
  induction s as [|c s IH]; simpl; [reflexivity|].
  intros H. apply orb_false_iff in H as [Hc Hs].
  now rewrite Hc, (IH Hs).
Qed.

Lemma is_dir_child (t : tree) (p : path) (n : string) :
  Posix.is_dir t (p ++ [n])%list
  = match Posix.lookup t (p ++ [n])%list with
    | Some Dir => true
    | _ => false
    end.
Proof.
  unfold Posix.is_dir.
  destruct (p ++ [n])%list eqn:Hp; [now destruct p | reflexivity].
Qed.

(** [makedirs] on the name of one entry of the working directory. *)
Lemma makedirs_entry (t : tree) (wd : path) (d : string) :
  PosixPath.entry_name d = true ->
  Posix.is_dir t wd = true ->
  PosixDir.makedirs wd d t
  = match Posix.lookup t (wd ++ [d])%list with
    | None => (None, (t ++ [((wd ++ [d])%list, Dir)])%list)
    | Some Dir => (None, t)
    | Some (File _) => (Some FileExistsError, t)
    end.
Proof.
  intros Hn Hwd.
  pose proof (entry_name_inv d Hn) as (Hne & Hslash & Hzero & Hdot & Hdots).
  pose proof (enter_entry_name wd d Hn) as Henter.
  assert (Hstart : PyStr.startswith "/" d = false).
  { destruct d as [|c d]; [reflexivity|].
    cbn [PyStr.startswith PyStr.contains] in *.
    apply orb_false_iff in Hslash as [Hc _].
    rewrite Ascii.eqb_sym, Hc. reflexivity. }
  apply String.eqb_neq in Hne, Hdot, Hdots.
  rewrite makedirs_eq. unfold PosixDir.makedirs_body, PosixDir.split_name.
  assert (Hsplit : PosixDir.split d = ("", d)).
  { unfold PosixDir.split, PosixPath.basename.
    rewrite (split_no_sep _ _ Hslash).
    destruct d as [|c d]; [reflexivity|].
    cbn [PosixDir.head_raw]. now rewrite Hslash. }
  rewrite Hsplit, Hne. cbn [String.eqb negb andb].
  unfold PosixDir.mkdir_exist_ok, PosixDir.mkdir_at.
  rewrite Hne, Hzero, (rstrip_slash_no_slash _ Hslash), Hne, Hstart.
  rewrite (split_no_sep _ _ Hslash). cbn [removelast last Posix.walk].
  rewrite Hwd, Hne, Hdot, Hdots. cbn [negb orb].
  destruct (Posix.lookup t (wd ++ [d])%list) as [[|f]|] eqn:Hl; [| |reflexivity].
  - cbn [is_os_error andb]. unfold PosixDir.isdir_at, Posix.resolve_at.
    rewrite Hne, Hzero, Hstart, (split_no_sep _ _ Hslash).
    cbn [Posix.walk]. rewrite Hwd, Henter, is_dir_child, Hl. reflexivity.
  - cbn [is_os_error andb]. unfold PosixDir.isdir_at, Posix.resolve_at.
    rewrite Hne, Hzero, Hstart, (split_no_sep _ _ Hslash).
    cbn [Posix.walk]. rewrite Hwd, Henter, is_dir_child, Hl. reflexivity.
Qed.

(** The run of [create_directory] in terms of [makedirs]. *)
Lemma create_directory_run (directory_name : string) (mw : MainWorld) :
  create_directory directory_name mw
  = match PosixDir.makedirs (cwd (world mw)) directory_name (fs (world mw)) with
    | (None, t) =>
        (Done (Some directory_name),
         mkMainWorld (set_fs t (world mw)) (stdin mw)
                     (screen mw ++ [DirectoryReady directory_name])%list)
    | (Some e, t) =>
        if is_os_error e
        then (Done None,
              mkMainWorld (set_fs t (world mw)) (stdin mw)
                          (screen mw ++ [DirectoryError e])%list)
        else (Crash (Escaped e),
              mkMainWorld (set_fs t (world mw)) (stdin mw) (screen mw))
    end.
Proof.
  unfold create_directory, except_os_error, mbind, os_makedirs.
  destruct (PosixDir.makedirs _ _ _) as [[e|] t]; [|reflexivity].
  now destruct (is_os_error e).
Qed.

(** X16: [create_directory] only adds directories.  Whatever the name
    and whatever the outcome, the tree afterwards is the tree before
    with directories added at its end: no entry is removed, replaced or
    moved.  Nothing is sent, nothing is read from the input, and the
    working directory stays. *)
Theorem create_directory_only_adds (directory_name : string) (mw : MainWorld) :
  let mw' := snd (create_directory directory_name mw) in
  only_adds_directories (fs (world mw)) (fs (world mw'))
  /\ cwd (world mw') = cwd (world mw)
  /\ requests_sent (world mw') = requests_sent (world mw)
  /\ stdin mw' = stdin mw.
Proof.
  cbv zeta. rewrite create_directory_run.
  pose proof (makedirs_adds (cwd (world mw)) directory_name (fs (world mw))) as H.
  destruct (PosixDir.makedirs _ _ _) as [[e|] t]; cbn [snd] in H.
  - destruct (is_os_error e); cbn; auto.
  - cbn; auto.
Qed.

(** X17: for the name of one entry of a working directory that exists,
    when no file of that name is in the way, [create_directory] returns
    the name and prints that the directory is ready; the directory is
    there afterwards and can be listed.  When it was there before, no
    file changes: a second call does nothing more than the first. *)
Theorem create_directory_ready (directory_name : string) (mw : MainWorld) :
  PosixPath.entry_name directory_name = true ->
  Posix.is_dir (fs (world mw)) (cwd (world mw)) = true ->
  (forall f, Posix.lookup (fs (world mw)) (cwd (world mw) ++ [directory_name])%list
             <> Some (File f)) ->
  exists mw',
    create_directory directory_name mw = (Done (Some directory_name), mw')
    /\ screen mw' = (screen mw ++ [DirectoryReady directory_name])%list
    /\ Posix.lookup (fs (world mw')) (cwd (world mw) ++ [directory_name])%list
       = Some Dir
    /\ (exists entries, os_listdir directory_name (world mw')
                        = (Ok entries, world mw'))
    /\ (Posix.lookup (fs (world mw)) (cwd (world mw) ++ [directory_name])%list
          = Some Dir -> fs (world mw') = fs (world mw))
    /\ fs (world (snd (create_directory directory_name mw')))
       = fs (world mw').
Proof.
  intros Hn Hwd Hfile.
  assert (Hafter : forall t,
    Posix.is_dir t (cwd (world mw)) = true ->
    Posix.lookup t (cwd (world mw) ++ [directory_name])%list = Some Dir ->
    Posix.listdir_at t (cwd (world mw)) directory_name
    = Ok (Posix.names_in (cwd (world mw) ++ [directory_name])%list t)).
  { intros t Ht Hl. unfold Posix.listdir_at, Posix.resolve_at.
    pose proof (entry_name_inv _ Hn) as (Hne & Hslash & Hzero & _ & _).
    apply String.eqb_neq in Hne. rewrite Hne, Hzero.
    assert (Hstart : PyStr.startswith "/" directory_name = false).
    { destruct directory_name as [|c d]; [reflexivity|].
      cbn [PyStr.startswith PyStr.contains] in *.
      apply orb_false_iff in Hslash as [Hc _].
      rewrite Ascii.eqb_sym, Hc. reflexivity. }
    rewrite Hstart, (split_no_sep _ _ Hslash). cbn [Posix.walk].
    rewrite Ht, (enter_entry_name _ _ Hn), is_dir_child, Hl. reflexivity. }
  rewrite create_directory_run, (makedirs_entry _ _ _ Hn Hwd).
  destruct (Posix.lookup (fs (world mw)) (cwd (world mw) ++ [directory_name])%list)
    as [[|f]|] eqn:Hl.
  - eexists. split; [reflexivity|]. cbn [screen world fs cwd set_fs snd].
    split; [reflexivity|]. split; [exact Hl|].
    split; [eexists; unfold os_listdir; cbn [fs cwd set_fs];
            rewrite (Hafter _ Hwd Hl); reflexivity|].
    split; [reflexivity|].
    rewrite create_directory_run. cbn [world fs cwd set_fs].
    rewrite (makedirs_entry _ _ _ Hn Hwd), Hl. reflexivity.
  - now contradiction (Hfile f).
  - assert (Hl' : Posix.lookup
                    (fs (world mw) ++ [((cwd (world mw) ++ [directory_name])%list, Dir)])%list
                    (cwd (world mw) ++ [directory_name])%list = Some Dir).
    { rewrite lookup_app, Hl. simpl. now rewrite path_eqb_refl. }
    assert (Hwd' : Posix.is_dir
                     (fs (world mw) ++ [((cwd (world mw) ++ [directory_name])%list, Dir)])%list
                     (cwd (world mw)) = true).
    { unfold Posix.is_dir in *. destruct (cwd (world mw)) as [|c p]; [reflexivity|].
      rewrite lookup_app.
      destruct (Posix.lookup (fs (world mw)) (c :: p)) as [[|f]|];
        try discriminate; reflexivity. }
    eexists. split; [reflexivity|]. cbn [screen world fs cwd set_fs snd].
    split; [reflexivity|]. split; [exact Hl'|].
    split; [eexists; unfold os_listdir; cbn [fs cwd set_fs];
            rewrite (Hafter _ Hwd' Hl'); reflexivity|].
    split; [discriminate|].
    rewrite create_directory_run. cbn [world fs cwd set_fs].
    rewrite (makedirs_entry _ _ _ Hn Hwd'), Hl'. reflexivity.
Qed.

(** X18: a file that has the name of the directory blocks it:
    [create_directory] prints the error [FileExistsError], returns
    [None], and leaves the files as they are. *)
Theorem create_directory_blocked (directory_name : string) (mw : MainWorld)
        (f : file) :
  PosixPath.entry_name directory_name = true ->
  Posix.is_dir (fs (world mw)) (cwd (world mw)) = true ->
  Posix.lookup (fs (world mw)) (cwd (world mw) ++ [directory_name])%list
    = Some (File f) ->
  exists mw',
    create_directory directory_name mw = (Done None, mw')
    /\ screen mw' = (screen mw ++ [DirectoryError FileExistsError])%list
    /\ fs (world mw') = fs (world mw)
    /\ stdin mw' = stdin mw.
Proof.
  intros Hn Hwd Hl.
  rewrite create_directory_run, (makedirs_entry _ _ _ Hn Hwd), Hl.
  eexists. split; [reflexivity|]. cbn. auto.
Qed.

(** ** main: the list of URLs *)

Lemma lstrip_fixed (s : string) :
  PyStrip.lstrip (PyStrip.lstrip s) = PyStrip.lstrip s.
Proof.
  induction s as [|c s IH]; [reflexivity|].
  cbn [PyStrip.lstrip]. destruct (PyStrip.is_space c) eqn:Hc; [exact IH|].
  cbn [PyStrip.lstrip]. now rewrite Hc.
Qed.

Lemma rstrip_fixed (s : string) :
  PyStrip.rstrip (PyStrip.rstrip s) = PyStrip.rstrip s.
Proof.
  induction s as [|c s IH]; [reflexivity|].
  cbn [PyStrip.rstrip].
  destruct (PyStrip.is_space c && String.eqb (PyStrip.rstrip s) "") eqn:Hc;
    [reflexivity|].
  cbn [PyStrip.rstrip]. now rewrite IH, Hc.
Qed.

Lemma rstrip_lstrip_fixed (s : string) :
  PyStrip.rstrip s = s -> PyStrip.rstrip (PyStrip.lstrip s) = PyStrip.lstrip s.
Proof.
  induction s as [|c s IH]; [reflexivity|].
  intros H. cbn [PyStrip.lstrip].
  destruct (PyStrip.is_space c); [|exact H].
  apply IH. cbn [PyStrip.rstrip] in H.
  destruct (PyStrip.is_space c && String.eqb (PyStrip.rstrip s) "");
    [discriminate | now injection H].
Qed.

Lemma lstrip_contains (c : ascii) (s : string) :
  PyStr.contains c (PyStrip.lstrip s) = true -> PyStr.contains c s = true.
Proof.
  induction s as [|x s IH]; [discriminate|].
  cbn [PyStrip.lstrip]. destruct (PyStrip.is_space x); [|auto].
  intros H. cbn [PyStr.contains]. rewrite (IH H). apply orb_true_r.
Qed.

Lemma rstrip_contains (c : ascii) (s : string) :
  PyStr.contains c (PyStrip.rstrip s) = true -> PyStr.contains c s = true.
Proof.
  induction s as [|x s IH]; [discriminate|].
  cbn [PyStrip.rstrip].
  destruct (PyStrip.is_space x && String.eqb (PyStrip.rstrip s) "");
    [discriminate|].
  cbn [PyStr.contains]. intros H. apply orb_true_iff in H as [H|H].
  - now rewrite H.
  - rewrite (IH H). apply orb_true_r.
Qed.

(** X19: the URLs that [main] takes from the line of input: none is
    empty, none begins or ends with white space, none holds a comma. *)
Theorem parse_urls_clean (urls_input url : string) :
  In url (parse_urls urls_input) ->
  url <> ""
  /\ PyStrip.lstrip url = url
  /\ PyStrip.rstrip url = url
  /\ PyStr.contains "," url = false.
Proof.
  unfold parse_urls. intros H.
  apply in_map_iff in H as (part & <- & Hpart).
  apply filter_In in Hpart as [Hin Hne].
  apply negb_true_iff, String.eqb_neq in Hne.
  split; [exact Hne|]. unfold PyStrip.strip.
  split; [apply lstrip_fixed|].
  split; [apply rstrip_lstrip_fixed, rstrip_fixed|].
  pose proof (split_parts_no_sep "," urls_input) as Hall.
  rewrite Forall_forall in Hall. specialize (Hall _ Hin).
  destruct (PyStr.contains "," (PyStrip.lstrip (PyStrip.rstrip part))) eqn:Hc;
    [|reflexivity].
  apply lstrip_contains, rstrip_contains in Hc. congruence.
Qed.

Lemma parse_urls_clean_witness :
  In "http://a/x.png" (parse_urls " http://a/x.png , ,, ftp://b ")
  /\ parse_urls " http://a/x.png , ,, ftp://b " = ["http://a/x.png"; "ftp://b"]
  /\ "http://a/x.png" <> ""
  /\ PyStrip.lstrip "http://a/x.png" = "http://a/x.png"
  /\ PyStrip.rstrip "http://a/x.png" = "http://a/x.png"
  /\ PyStr.contains "," "http://a/x.png" = false.
Proof.
  assert (H : In "http://a/x.png" (parse_urls " http://a/x.png , ,, ftp://b "))
    by (vm_compute; auto).
  split; [exact H|]. split; [reflexivity|].
  exact (parse_urls_clean _ _ H).
Defined.

(** ** main: the loop and the whole program *)

Section Batch.
Context {L : UrlLib}.

(** What one call of [download_image] does besides the files. *)
Lemma download_image_summary url directory w :
  exists b w',
    download_image url directory w = (Ok b, w')
    /\ requests_sent w'
       = (requests_sent w ++ (if valid_scheme url then [url] else []))%list
    /\ cwd w' = cwd w
    /\ (exists out, stdout w' = (stdout w ++ out)%list)
    /\ (valid_scheme url = false -> b = false).
Proof.
  destruct (early_exit url directory w)
    as [(out & H & Hs)|[(out & H & Hs)|(r & Hs & Hsrv & Hst & Hct)]].
  - rewrite H, Hs. eexists _, _. split; [reflexivity|]. simpl.
    rewrite app_nil_r. repeat split; eauto.
  - rewrite H, Hs. eexists _, _. split; [reflexivity|]. simpl.
    repeat split; eauto.
  - destruct (fetch_run url directory w r Hs Hsrv Hst Hct) as (out & H).
    rewrite H, Hs. cbv zeta.
    destruct (extract_filename url (Some (content_type_of r))).
    2: { eexists _, _. split; [reflexivity|]. simpl. rewrite <- app_assoc.
         repeat split; eauto. }
    destruct (find_duplicate (fs w) (cwd w) directory (body r))
      as [[[|] existing]|e].
    1, 3: eexists _, _; (split; [reflexivity|]); simpl; rewrite <- app_assoc;
      repeat split; eauto.
    destruct (Posix.write_at _ _ _ _);
      eexists _, _; (split; [reflexivity|]); simpl; rewrite <- app_assoc;
      repeat split; eauto.
Qed.

Lemma call_download_image_run url directory mw :
  exists b mw',
    call_download_image url directory mw = (Done b, mw')
    /\ requests_sent (world mw')
       = (requests_sent (world mw) ++ (if valid_scheme url then [url] else []))%list
    /\ cwd (world mw') = cwd (world mw)
    /\ stdin mw' = stdin mw
    /\ (exists out, screen mw' = (screen mw ++ map Fetch out)%list)
    /\ (valid_scheme url = false -> b = false).
Proof.
  unfold call_download_image.
  destruct (download_image_summary url directory
              (mkWorld (fs (world mw)) (cwd (world mw)) (server (world mw))
                       (requests_sent (world mw)) []))
    as (b & w' & -> & Hreq & Hcwd & _ & Hb).
  exists b. eexists. split; [reflexivity|]. cbn [world stdin screen].
  repeat split; eauto.
Qed.

Lemma filter_own_fetch (out : list msg) : filter own_line (map Fetch out) = [].
Proof. induction out; simpl; auto. Qed.

(** The loop of [main], URL after URL. *)
Lemma fetch_all_run directory total i urls successful mw :
  exists n mw' new,
    fetch_all directory total i urls successful mw = (Done n, mw')
    /\ successful <= n <= successful + length (filter valid_scheme urls)
    /\ requests_sent (world mw')
       = (requests_sent (world mw) ++ filter valid_scheme urls)%list
    /\ screen mw' = (screen mw ++ new)%list
    /\ filter own_line new = numbered total i urls
    /\ stdin mw' = stdin mw.
Proof.
  revert i successful mw.
  induction urls as [|url rest IH]; intros i successful mw.
  - exists successful, mw, []. cbn. rewrite !app_nil_r.
    repeat split; auto; lia.
  - cbn [fetch_all]. unfold mbind at 1. cbn [say].
    set (mw1 := mkMainWorld (world mw) (stdin mw)
                            (screen mw ++ [Fetching i total url])%list).
    unfold mbind at 1.
    destruct (call_download_image_run url directory mw1)
      as (b & mw2 & -> & Hreq & Hcwd & Hin & (out & Hscr) & Hb).
    destruct (IH (S i) (if b then S successful else successful) mw2)
      as (n & mw' & new & -> & Hn & Hreq' & Hscr' & Hown & Hin').
    exists n, mw', (Fetching i total url :: map Fetch out ++ new)%list.
    split; [reflexivity|].
    split.
    { cbn [filter]. destruct (valid_scheme url) eqn:Hs.
      - cbn [length]. destruct b; lia.
      - rewrite (Hb eq_refl) in Hn. lia. }
    split.
    { rewrite Hreq', Hreq. cbn [world mw1 filter].
      destruct (valid_scheme url); [now rewrite <- app_assoc|].
      now rewrite app_nil_r. }
    split.
    { rewrite Hscr', Hscr. cbn [screen mw1].
      rewrite <- !app_assoc. reflexivity. }
    split.
    { cbn [filter own_line numbered]. f_equal.
      now rewrite filter_app, filter_own_fetch, Hown. }
    now rewrite Hin', Hin.
Qed.

(** X20: the loop of [main] goes through every URL, in order, whatever
    the earlier ones gave: it never stops early and never raises.  Each
    URL is announced with its number, each URL with a valid scheme is
    requested once, and the count of successes grows by at most the
    number of URLs with a valid scheme. *)
Theorem fetch_all_covers_every_url directory total i urls successful mw :
  exists n mw' new,
    fetch_all directory total i urls successful mw = (Done n, mw')
    /\ successful <= n <= successful + length (filter valid_scheme urls)
    /\ requests_sent (world mw')
       = (requests_sent (world mw) ++ filter valid_scheme urls)%list
    /\ screen mw' = (screen mw ++ new)%list
    /\ filter own_line new = numbered total i urls
    /\ stdin mw' = stdin mw.
Proof. exact (fetch_all_run directory total i urls successful mw). Qed.

(** The run of [main] up to the call of [create_directory]. *)
Lemma main_run (mw : MainWorld) :
  main mw
  = match create_directory "Fetched_Images"
            (mkMainWorld (world mw) (stdin mw) (screen mw ++ banner)%list) with
    | (Done (Some (String c s)), mw1) =>
        (urls_input <- input ;;
         let urls_input := PyStrip.strip urls_input in
         if String.eqb urls_input "" then
           say NoUrls ;;
           mret tt
         else
           let urls := parse_urls urls_input in
           say (Processing (length urls)) ;;
           successful_downloads
             <- fetch_all (String c s) (length urls) 1 urls 0 ;;
           say (Rule true) ;;
           say Complete ;;
           say (Summary successful_downloads (length urls)) ;;
           say Thanks ;;
           say (Rule false))%main mw1
    | (Done _, mw1) => (Done tt, mw1)
    | (Crash e, mw1) => (Crash e, mw1)
    end.
Proof.
  unfold main. do 4 (unfold mbind at 1; cbn [say]).
  unfold mbind at 1. unfold banner. cbn [world stdin screen].
  rewrite <- !app_assoc. cbn [app].
  destruct (create_directory "Fetched_Images" _) as [[[[|c s]|]|e] mw1];
    reflexivity.
Qed.

(** X21: when a file named [Fetched_Images] is in the way, [main] ends
    after the error line of [create_directory]: it asks for no URL,
    reads nothing, sends nothing and changes no file. *)
Theorem main_stops_without_directory (mw : MainWorld) (f : file) :
  Posix.is_dir (fs (world mw)) (cwd (world mw)) = true ->
  Posix.lookup (fs (world mw)) (cwd (world mw) ++ ["Fetched_Images"])%list
    = Some (File f) ->
  exists mw',
    main mw = (Done tt, mw')
    /\ screen mw' = (screen mw ++ banner ++ [DirectoryError FileExistsError])%list
    /\ stdin mw' = stdin mw
    /\ requests_sent (world mw') = requests_sent (world mw)
    /\ fs (world mw') = fs (world mw).
Proof.
  intros Hwd Hl. rewrite main_run, create_directory_run.
  cbn [world stdin screen].
  rewrite (makedirs_entry _ _ "Fetched_Images" eq_refl Hwd), Hl.
  cbn [is_os_error]. eexists. split; [reflexivity|].
  cbn. rewrite <- app_assoc. auto.
Qed.

(** The directory of [main] is made or found. *)
Lemma main_directory_ready (mw : MainWorld) :
  Posix.is_dir (fs (world mw)) (cwd (world mw)) = true ->
  (forall f, Posix.lookup (fs (world mw)) (cwd (world mw) ++ ["Fetched_Images"])%list
             <> Some (File f)) ->
  exists t,
    create_directory "Fetched_Images"
      (mkMainWorld (world mw) (stdin mw) (screen mw ++ banner)%list)
    = (Done (Some "Fetched_Images"),
       mkMainWorld (set_fs t (world mw)) (stdin mw)
         (screen mw ++ banner ++ [DirectoryReady "Fetched_Images"])%list).
Proof.
  intros Hwd Hfile. rewrite create_directory_run. cbn [world stdin screen].
  rewrite (makedirs_entry _ _ "Fetched_Images" eq_refl Hwd).
  destruct (Posix.lookup _ _) as [[|f]|] eqn:Hl;
    [| now contradiction (Hfile f) |];
    eexists; rewrite <- app_assoc; reflexivity.
Qed.

(** X22: a batch.  The directory can be made or is there, and the line
    of input holds more than white space.  Then [main] goes to its end:
    it requests every URL of the line that has a valid scheme, in the
    order of the line, and closes with the summary "n of total", where
    total is the number of URLs of the line and n is at most the number
    of those with a valid scheme.  The rest of the input is not read. *)
Theorem main_runs_the_batch (mw : MainWorld) (l : string) (rest : list string) :
  Posix.is_dir (fs (world mw)) (cwd (world mw)) = true ->
  (forall f, Posix.lookup (fs (world mw)) (cwd (world mw) ++ ["Fetched_Images"])%list
             <> Some (File f)) ->
  stdin mw = l :: rest ->
  PyStrip.strip l <> "" ->
  let urls := parse_urls (PyStrip.strip l) in
  exists n mw' shown,
    main mw = (Done tt, mw')
    /\ n <= length (filter valid_scheme urls)
    /\ screen mw' = (screen mw ++ shown ++ closing n (length urls))%list
    /\ requests_sent (world mw')
       = (requests_sent (world mw) ++ filter valid_scheme urls)%list
    /\ stdin mw' = rest.
Proof.
  intros Hwd Hfile Hin Hl. cbv zeta.
  destruct (main_directory_ready mw Hwd Hfile) as (t & Hdir).
  rewrite main_run, Hdir. clear Hdir.
  unfold mbind at 1. unfold input. cbn [stdin screen world]. rewrite Hin.
  apply String.eqb_neq in Hl. rewrite Hl.
  unfold mbind at 1. cbn [say world stdin screen].
  unfold mbind at 1.
  match goal with
  | |- context [fetch_all ?d ?tot ?i ?us ?s ?m] =>
      destruct (fetch_all_run d tot i us s m)
        as (n & mw2 & new & -> & Hn & Hreq & Hscr & _ & Hin2)
  end.
  exists n. eexists.
  exists (banner
          ++ [DirectoryReady "Fetched_Images"; Prompt;
              Processing (length (parse_urls (PyStrip.strip l)))]
          ++ new)%list.
  split; [cbv [mbind say mret]; cbn [world stdin screen]; reflexivity|].
  cbn [world stdin screen requests_sent] in *.
  split; [lia|]. split; [|split; [exact Hreq | exact Hin2]].
  rewrite Hscr. unfold closing, banner. rewrite <- !app_assoc. cbn [app].
  reflexivity.
Qed.

(** X23: no URL.  The directory can be made or is there.  When the line
    of input holds white space only, [main] prints that no URL was given
    and ends; when the input is at its end, [input] raises [EOFError]
    and nothing catches it.  In both cases nothing is sent. *)
Theorem main_without_urls (mw : MainWorld) :
  Posix.is_dir (fs (world mw)) (cwd (world mw)) = true ->
  (forall f, Posix.lookup (fs (world mw)) (cwd (world mw) ++ ["Fetched_Images"])%list
             <> Some (File f)) ->
  (forall l rest, stdin mw = l :: rest -> PyStrip.strip l = "") ->
  exists mw',
    main mw = (match stdin mw with
               | [] => Crash EOFError
               | _ :: _ => Done tt
               end, mw')
    /\ screen mw'
       = (screen mw ++ banner
          ++ [DirectoryReady "Fetched_Images"; Prompt]
          ++ match stdin mw with
             | [] => []
             | _ :: _ => [NoUrls]
             end)%list
    /\ requests_sent (world mw') = requests_sent (world mw)
    /\ stdin mw' = tl (stdin mw).
Proof.
  intros Hwd Hfile Hblank.
  destruct (main_directory_ready mw Hwd Hfile) as (t & Hdir).
  rewrite main_run, Hdir. clear Hdir.
  unfold mbind at 1. unfold input. cbn [stdin screen world].
  destruct (stdin mw) as [|l rest] eqn:Hin.
  - eexists. split; [reflexivity|]. cbn. rewrite <- !app_assoc. auto.
  - rewrite (Hblank l rest eq_refl). cbn [String.eqb].
    eexists. split; [cbv [mbind say mret]; reflexivity|].
    cbn. rewrite <- !app_assoc. auto.
Qed.

End Batch.

(** ** Examples of create_directory and main *)

Lemma create_directory_ready_witness :
  let mw := MainScenario.console MainScenario.home [] in
  PosixPath.entry_name "Fetched_Images" = true
  /\ Posix.is_dir (fs (world mw)) (cwd (world mw)) = true
  /\ exists mw',
       create_directory "Fetched_Images" mw = (Done (Some "Fetched_Images"), mw')
       /\ screen mw' = [DirectoryReady "Fetched_Images"]
       /\ Posix.lookup (fs (world mw')) ["srv"; "Fetched_Images"] = Some Dir
       /\ (exists entries, os_listdir "Fetched_Images" (world mw')
                           = (Ok entries, world mw'))
       /\ (Posix.lookup (fs (world mw)) ["srv"; "Fetched_Images"] = Some Dir
           -> fs (world mw') = fs (world mw))
       /\ fs (world (snd (create_directory "Fetched_Images" mw')))
          = fs (world mw').
Proof.
  cbv zeta. split; [reflexivity|]. split; [reflexivity|].
  apply (create_directory_ready "Fetched_Images"
           (MainScenario.console MainScenario.home []));
    [reflexivity | reflexivity | intros f; vm_compute; discriminate].
Defined.

Lemma create_directory_blocked_witness :
  let mw := MainScenario.console MainScenario.blocked [] in
  Posix.lookup (fs (world mw)) (cwd (world mw) ++ ["Fetched_Images"])%list
    = Some (File (mkFile [] true true))
  /\ exists mw',
       create_directory "Fetched_Images" mw = (Done None, mw')
       /\ screen mw' = [DirectoryError FileExistsError]
       /\ fs (world mw') = fs (world mw)
       /\ stdin mw' = stdin mw.
Proof.
  cbv zeta. split; [reflexivity|].
  apply (create_directory_blocked "Fetched_Images"
           (MainScenario.console MainScenario.blocked [])
           (mkFile [] true true)); reflexivity.
Defined.

Lemma main_stops_without_directory_witness :
  let mw := MainScenario.console MainScenario.blocked
              ["http://example.com/cat.png"] in
  Posix.is_dir (fs (world mw)) (cwd (world mw)) = true
  /\ Posix.lookup (fs (world mw)) (cwd (world mw) ++ ["Fetched_Images"])%list
     = Some (File (mkFile [] true true))
  /\ exists mw',
       main mw = (Done tt, mw')
       /\ screen mw' = (banner ++ [DirectoryError FileExistsError])%list
       /\ stdin mw' = ["http://example.com/cat.png"]
       /\ requests_sent (world mw') = []
       /\ fs (world mw') = MainScenario.blocked.
Proof.
  cbv zeta. split; [reflexivity|]. split; [reflexivity|].
  apply (main_stops_without_directory
           (MainScenario.console MainScenario.blocked
              ["http://example.com/cat.png"])
           (mkFile [] true true)); reflexivity.
Defined.

Lemma main_runs_the_batch_witness :
  let l := " http://example.com/cat.png, ftp://example.com/x.png ,, http://example.com/dog.png" in
  let mw := MainScenario.console MainScenario.home [l; "not read"] in
  Posix.is_dir (fs (world mw)) (cwd (world mw)) = true
  /\ stdin mw = [l; "not read"]
  /\ PyStrip.strip l <> ""
  /\ parse_urls (PyStrip.strip l)
     = ["http://example.com/cat.png"; "ftp://example.com/x.png";
        "http://example.com/dog.png"]
  /\ exists n mw' shown,
       main mw = (Done tt, mw')
       /\ n <= 2
       /\ screen mw' = (shown ++ closing n 3)%list
       /\ requests_sent (world mw')
          = ["http://example.com/cat.png"; "http://example.com/dog.png"]
       /\ stdin mw' = ["not read"].
Proof.
  cbv zeta. split; [reflexivity|]. split; [reflexivity|].
  split; [vm_compute; discriminate|]. split; [vm_compute; reflexivity|].
  apply (main_runs_the_batch
           (MainScenario.console MainScenario.home
              [" http://example.com/cat.png, ftp://example.com/x.png ,, http://example.com/dog.png";
               "not read"])
           " http://example.com/cat.png, ftp://example.com/x.png ,, http://example.com/dog.png"
           ["not read"]);
    [reflexivity | intros f; vm_compute; discriminate | reflexivity
     | vm_compute; discriminate].
Defined.

Lemma main_without_urls_witness :
  let mw := MainScenario.console MainScenario.home ["   "; "not read"] in
  Posix.is_dir (fs (world mw)) (cwd (world mw)) = true
  /\ PyStrip.strip "   " = ""
  /\ exists mw',
       main mw = (Done tt, mw')
       /\ screen mw' = (banner ++ [DirectoryReady "Fetched_Images"; Prompt; NoUrls])%list
       /\ requests_sent (world mw') = []
       /\ stdin mw' = ["not read"].
Proof.
  cbv zeta. split; [reflexivity|]. split; [reflexivity|].
  apply (main_without_urls
           (MainScenario.console MainScenario.home ["   "; "not read"]));
    [reflexivity | intros f; vm_compute; discriminate
     | intros l rest [= <- _]; reflexivity].
Defined.

Example main_end_of_input :
  fst (main (MainScenario.console MainScenario.home [])) = Crash EOFError.
Proof. vm_compute. reflexivity. Qed.

Example main_example_batch :
  let mw' := snd (main (MainScenario.console MainScenario.home
                          ["http://example.com/pics/cat.png,http://example.com/x/other.png"])) in
  screen mw'
  = (banner
     ++ [DirectoryReady "Fetched_Images"; Prompt; Processing 2;
         Fetching 1 2 "http://example.com/pics/cat.png";
         Fetch (MsgConnecting "http://example.com/pics/cat.png");
         Fetch MsgSecurityHeaders;
         Fetch (MsgFetched "cat.png" 4);
         Fetch (MsgSaved "Fetched_Images");
         Fetching 2 2 "http://example.com/x/other.png";
         Fetch (MsgConnecting "http://example.com/x/other.png");
         Fetch MsgSecurityHeaders;
         Fetch (MsgDuplicate (Some "cat.png"))]
     ++ closing 2 2)%list.
Proof. vm_compute. reflexivity. Qed.

(** ** download_image: the headers *)


Section Headers.
Context {L : UrlLib}.

Lemma download_image_not_image_run url directory w r :
  valid_scheme url = true ->
  server w url = NetOk r ->
  status_passes r = true ->
  PyStr.startswith "image/" (content_type_of r) = false ->
  download_image url directory w
  = (Ok false,
     add_out (sent w url) [MsgConnecting url; MsgNotImage (content_type_of r)]).
Proof.
  intros Hs Hsrv Hst Hct.
  rewrite (download_image_response _ _ _ _ Hs Hsrv Hst).
  unfold try_except, save_image. rewrite Hct.
  cbv [negb bind print ret add_out sent].
  cbn [fs cwd server requests_sent stdout]. now rewrite <- app_assoc.
Qed.

(** X25: the result of [download_image] and the files it leaves depend
    on the response through its status, its content type and its body
    only: the other headers, the security headers among them, are
    printed and decide nothing. *)
Theorem other_headers_decide_nothing url directory w1 w2 r1 r2 :
  fs w1 = fs w2 ->
  cwd w1 = cwd w2 ->
  server w1 url = NetOk r1 ->
  server w2 url = NetOk r2 ->
  status_code r1 = status_code r2 ->
  content_type_of r1 = content_type_of r2 ->
  body r1 = body r2 ->
  fst (download_image url directory w1) = fst (download_image url directory w2)
  /\ fs (snd (download_image url directory w1))
     = fs (snd (download_image url directory w2)).
Proof.
  intros Hfs Hcwd H1 H2 Hst Hct Hbody.
  destruct (valid_scheme url) eqn:Hs.
  2: { rewrite !download_image_invalid by assumption. now split. }
  assert (Hpass : status_passes r1 = status_passes r2)
    by (unfold status_passes; now rewrite Hst).
  destruct (status_passes r2) eqn:Hp2.
  2: { rewrite (download_image_http_error _ _ _ _ Hs H1 Hpass),
               (download_image_http_error _ _ _ _ Hs H2 Hp2). now split. }
  destruct (PyStr.startswith "image/" (content_type_of r2)) eqn:Hc2.
  2: { rewrite (download_image_not_image_run _ _ _ _ Hs H1 Hpass)
         by (now rewrite Hct).
       rewrite (download_image_not_image_run _ _ _ _ Hs H2 Hp2 Hc2).
       now split. }
  assert (Hc1 : PyStr.startswith "image/" (content_type_of r1) = true)
    by (now rewrite Hct).
  destruct (fetch_run url directory w1 r1 Hs H1 Hpass Hc1) as (out1 & ->).
  destruct (fetch_run url directory w2 r2 Hs H2 Hp2 Hc2) as (out2 & ->).
  cbv zeta. rewrite Hct, Hbody, Hfs, Hcwd.
  destruct (extract_filename url (Some (content_type_of r2)));
    [|now split].
  destruct (find_duplicate (fs w2) (cwd w2) directory (body r2))
    as [[[|] existing]|e]; try (now split).
  destruct (Posix.write_at _ _ _ _); now split.
Qed.

End Headers.

Lemma other_headers_decide_nothing_witness :
  let url := "http://example.com/pics/cat.png" in
  let w1 := Scenario.start (Scenario.always (Scenario.png 200)) in
  let w2 := Scenario.start (Scenario.always png_with_headers) in
  status_code (Scenario.png 200) = status_code png_with_headers
  /\ content_type_of (Scenario.png 200) = content_type_of png_with_headers
  /\ body (Scenario.png 200) = body png_with_headers
  /\ fst (download_image url "Fetched_Images" w1)
     = fst (download_image url "Fetched_Images" w2)
  /\ fs (snd (download_image url "Fetched_Images" w1))
     = fs (snd (download_image url "Fetched_Images" w2)).
Proof.
  cbv zeta. split; [reflexivity|]. split; [reflexivity|]. split; [reflexivity|].
  apply (other_headers_decide_nothing "http://example.com/pics/cat.png"
           "Fetched_Images"
           (Scenario.start (Scenario.always (Scenario.png 200)))
           (Scenario.start (Scenario.always png_with_headers))
           (Scenario.png 200) png_with_headers); reflexivity.
Defined.

Example headers_are_printed :
  stdout (snd (download_image "http://example.com/pics/cat.png" "Fetched_Images"
                 (Scenario.start (Scenario.always png_with_headers))))
  = [MsgConnecting "http://example.com/pics/cat.png"; MsgSecurityHeaders;
     MsgSecurityHeader "Content-Security-Policy" "default-src 'none'";
     MsgSecurityHeader "X-Frame-Options" "DENY";
     MsgFetched "cat.png" 4; MsgSaved "Fetched_Images"].
Proof. vm_compute. reflexivity. Qed.
